(** * Vending machine (TPRG 2131, project 1): a shallow embedding of
      [Vending_Machine_SA_4.py] and the properties of its state machine.

    The Python program keeps one mutable [VendingMachine] object, four state
    objects registered by name, and a polling loop that hands one GUI event
    per iteration to the active state.  Integers are Python integers (here
    [Z]); the dictionaries that are mutated ([stock], [states]) are finite
    maps; the two class-level tables ([PRODUCTS], [COINS]) keep their
    insertion order as association lists, because the constructor iterates
    over [COINS].  Everything printed, slept or sent to a pin is recorded in
    an output trace. *)

From Stdlib Require Import ZArith List Lia Permutation Sorted Ascii String.
From Stdlib Require DecimalString DecimalNat Finite.
From stdpp Require Import gmap strings list fin_maps.
Import ListNotations.

Open Scope string_scope.
Open Scope Z_scope.
Open Scope list_scope.

(** ** Class-level tables *)

(** A Python dict literal, in insertion order. *)
Fixpoint dict_get {V : Type} (k : string) (d : list (string * V)) : option V :=
  match d with
  | [] => None
  | (k', v) :: d' => if String.eqb k k' then Some v else dict_get k d'
  end.

(** [k in d] for a dict literal. *)
Definition dict_mem {V : Type} (k : string) (d : list (string * V)) : bool :=
  match dict_get k d with Some _ => true | None => false end.

(** [VendingMachine.PRODUCTS]: key -> (display name, price in cents). *)
Definition PRODUCTS : list (string * (string * Z)) :=
  [ ("diode", ("1N4001 diode", 75));
    ("transistor", ("2N3904 BJT", 150));
    ("cap", ("0.1uF Capacitor", 50));
    ("res", ("10k Resistor", 5)) ].

(** [VendingMachine.INITIAL_STOCK]. *)
Definition INITIAL_STOCK : list (string * Z) :=
  [ ("diode", 3); ("transistor", 2); ("cap", 4); ("res", 5) ].

(** [VendingMachine.COINS]: key -> (label, value in cents). *)
Definition COINS : list (string * (string * Z)) :=
  [ ("5", ("5", 5)); ("10", ("10", 10)); ("25", ("25", 25));
    ("100", ("100", 100)); ("200", ("200", 200)) ].

Definition DISPENSE_PIN : Z := 17.
Definition TESTING : bool := true.

(** ** [sorted(values, reverse=True)] *)

(** Stable insertion into a list that is already in descending order: the
    new element goes behind every element that is at least as large. *)
Fixpoint insert_desc (x : Z) (l : list Z) : list Z :=
  match l with
  | [] => [x]
  | y :: l' => if x <=? y then y :: insert_desc x l' else x :: l
  end.

Definition sorted_reverse (values : list Z) : list Z :=
  fold_left (fun acc x => insert_desc x acc) values [].

(** The loop of [__init__] that collects [COINS[k][1]] for every key [k]. *)
Fixpoint collect_values (keys : list string) (values : list Z) : option (list Z) :=
  match keys with
  | [] => Some values
  | k :: keys' =>
      match dict_get k COINS with
      | Some (_, v) => collect_values keys' (values ++ [v])
      | None => None
      end
  end.

Definition init_coin_values : list Z :=
  match collect_values (map fst COINS) [] with
  | Some values => sorted_reverse values
  | None => []
  end.

(** ** Output trace *)

(** What the program prints, logs, waits for or sends to the hardware.  The
    formatted texts interpolate amounts through float formatting
    ([amount / 100:.2f]); the trace keeps the interpolated value itself. *)
Inductive Output : Type :=
  | PrintWaiting
  | PrintBalance (amount : Z)
  | PrintOutOfStock (product_key : string)
  | PrintInsufficient (price : Z)
  | PrintDispensing (product_name : string)
  | PrintDispensed (product_name : string) (stock_left : Z)
  | PrintDeliverError (product_key : string)
  | PrintDispensingChange
  | PrintChangeDue (change_due : Z)
  | PrintReturningCoin (coin_value : Z)
  | LogCoinValues (values : list Z)
  | LogExiting (state_name : string)
  | LogEntering (state_name : string)
  | LogStartingChange (change_due : Z)
  | LogActivating
  | LogDispenseComplete
  | LogHardwareReturn
  | Sleep (milliseconds : Z)
  | GpioOutput (pin : Z) (high : bool)
  | HideFrame (button_key : string).

(** [log(s)]: prints only when [TESTING]. *)
Definition log (o : Output) : list Output := if TESTING then [o] else [].

(** ** The change loop of [CountChangeState.update] *)

(** [while remaining_change >= coin_value: print; remaining -= coin_value;
    sleep(0.6)].  The loop has no bound of its own, so it runs on fuel;
    [None] means the fuel ran out. *)
Fixpoint return_coins (fuel : nat) (coin_value remaining : Z)
  : option (Z * list Output) :=
  match fuel with
  | O => None
  | S fuel' =>
      if remaining >=? coin_value then
        match return_coins fuel' coin_value (remaining - coin_value) with
        | Some (r, out) =>
            Some (r, PrintReturningCoin coin_value :: Sleep 600 :: out)
        | None => None
        end
      else Some (remaining, [])
  end.

(** [for coin_value in machine.coin_values: while ...]. *)
Fixpoint change_loop (fuel : nat) (coin_values : list Z) (remaining : Z)
  : option (Z * list Output) :=
  match coin_values with
  | [] => Some (remaining, [])
  | c :: rest =>
      match return_coins fuel c remaining with
      | Some (r, out) =>
          match change_loop fuel rest r with
          | Some (r', out') => Some (r', out ++ out')
          | None => None
          end
      | None => None
      end
  end.

(** The coins a trace hands back, in the order they are returned. *)
Fixpoint coins_emitted (out : list Output) : list Z :=
  match out with
  | [] => []
  | PrintReturningCoin c :: out' => c :: coins_emitted out'
  | _ :: out' => coins_emitted out'
  end.

Definition total (coins : list Z) : Z := fold_right Z.add 0 coins.

(** The decomposition as the specification words it: for each denomination
    in descending order, as many coins as fit into what remains. *)
Definition greedy_spec (amount : Z) : list Z :=
  let r200 := amount mod 200 in
  let r100 := r200 mod 100 in
  let r25 := r100 mod 25 in
  let r10 := r25 mod 10 in
  repeat 200 (Z.to_nat (amount / 200)) ++
  repeat 100 (Z.to_nat (r200 / 100)) ++
  repeat 25 (Z.to_nat (r100 / 25)) ++
  repeat 10 (Z.to_nat (r25 / 10)) ++
  repeat 5 (Z.to_nat (r10 / 5)).

(** ** Strings: ['_' in s] and [s.rsplit('_', 1)[0]] *)

Definition underscore : ascii := "_"%char.

(** ['_' in s]. *)
Fixpoint has_underscore (s : string) : bool :=
  match s with
  | EmptyString => false
  | String c s' => if Ascii.eqb c underscore then true else has_underscore s'
  end.

(** The text before the last ['_'] of [s], when there is one. *)
Fixpoint before_last_underscore (s : string) : option string :=
  match s with
  | EmptyString => None
  | String c s' =>
      match before_last_underscore s' with
      | Some p => Some (String c p)
      | None => if Ascii.eqb c underscore then Some EmptyString else None
      end
  end.

(** [s.rsplit('_', 1)[0]]: without a separator the whole string comes back. *)
Definition rsplit_head (s : string) : string :=
  match before_last_underscore s with
  | Some p => p
  | None => s
  end.

(** The key the GUI gives the [i]-th button of a product,
    [f"{product_key}_{i}"]; [i] is any text without a separator. *)
Definition button_key (product_key i : string) : string :=
  (product_key ++ String underscore i)%string.

(** ** State objects and the machine *)

Inductive StateClass : Type :=
  | State
  | WaitingState
  | AddCoinsState
  | DeliverProductState
  | CountChangeState.

(** The class attribute [_NAME]. *)
Definition _NAME (c : StateClass) : string :=
  match c with
  | State => ""
  | WaitingState => "waiting"
  | AddCoinsState => "add_coins"
  | DeliverProductState => "deliver_product"
  | CountChangeState => "count_change"
  end.

(** A state object: its class and its identity.  State objects have no
    fields; two instances of one class differ by identity only. *)
Record StateObj : Type := { cls : StateClass; oid : nat }.

(** The property [State.name]. *)
Definition name (s : StateObj) : string := _NAME (cls s).

#[global] Instance StateClass_eq_dec : EqDecision StateClass.
Proof. solve_decision. Defined.

#[global] Instance StateObj_eq_dec : EqDecision StateObj.
Proof. solve_decision. Defined.

(** The attributes of a [VendingMachine] object.  [selected_button_key] and
    [vend_successful] are attributes the program creates and deletes at run
    time: [None] is the attribute being absent. *)
Record VendingMachine : Type := {
  state : option StateObj;
  states : gmap string StateObj;
  event : string;
  amount : Z;
  change_due : Z;
  stock : gmap string Z;
  coin_values : list Z;
  selected_button_key : option string;
  vend_successful : option bool
}.

Definition set_state (s : option StateObj) (m : VendingMachine) : VendingMachine :=
  {| state := s; states := states m; event := event m; amount := amount m;
     change_due := change_due m; stock := stock m; coin_values := coin_values m;
     selected_button_key := selected_button_key m;
     vend_successful := vend_successful m |}.

Definition set_states (r : gmap string StateObj) (m : VendingMachine) : VendingMachine :=
  {| state := state m; states := r; event := event m; amount := amount m;
     change_due := change_due m; stock := stock m; coin_values := coin_values m;
     selected_button_key := selected_button_key m;
     vend_successful := vend_successful m |}.

Definition set_event (e : string) (m : VendingMachine) : VendingMachine :=
  {| state := state m; states := states m; event := e; amount := amount m;
     change_due := change_due m; stock := stock m; coin_values := coin_values m;
     selected_button_key := selected_button_key m;
     vend_successful := vend_successful m |}.

Definition set_amount (a : Z) (m : VendingMachine) : VendingMachine :=
  {| state := state m; states := states m; event := event m; amount := a;
     change_due := change_due m; stock := stock m; coin_values := coin_values m;
     selected_button_key := selected_button_key m;
     vend_successful := vend_successful m |}.

Definition set_change_due (c : Z) (m : VendingMachine) : VendingMachine :=
  {| state := state m; states := states m; event := event m; amount := amount m;
     change_due := c; stock := stock m; coin_values := coin_values m;
     selected_button_key := selected_button_key m;
     vend_successful := vend_successful m |}.

Definition set_stock (s : gmap string Z) (m : VendingMachine) : VendingMachine :=
  {| state := state m; states := states m; event := event m; amount := amount m;
     change_due := change_due m; stock := s; coin_values := coin_values m;
     selected_button_key := selected_button_key m;
     vend_successful := vend_successful m |}.

Definition set_selected_button_key (k : option string) (m : VendingMachine)
  : VendingMachine :=
  {| state := state m; states := states m; event := event m; amount := amount m;
     change_due := change_due m; stock := stock m; coin_values := coin_values m;
     selected_button_key := k; vend_successful := vend_successful m |}.

Definition set_vend_successful (b : option bool) (m : VendingMachine)
  : VendingMachine :=
  {| state := state m; states := states m; event := event m; amount := amount m;
     change_due := change_due m; stock := stock m; coin_values := coin_values m;
     selected_button_key := selected_button_key m; vend_successful := b |}.

(** ** Running Python code on the machine *)

Inductive Exception : Type :=
  | KeyError (key : string)
  | AttributeError (attr : string).

(** A call returns a value, the machine as it left it and what it printed;
    or it raises; or the fuel of a loop ran out. *)
Inductive result (A : Type) : Type :=
  | Ok (a : A) (m : VendingMachine) (out : list Output)
  | Raise (e : Exception)
  | OutOfFuel.

Arguments Ok {A} a m out.
Arguments Raise {A} e.
Arguments OutOfFuel {A}.

Definition Py (A : Type) : Type := VendingMachine -> result A.

Definition ret {A : Type} (a : A) : Py A := fun m => Ok a m [].

Definition bind {A B : Type} (c : Py A) (k : A -> Py B) : Py B :=
  fun m =>
    match c m with
    | Ok a m' out =>
        match k a m' with
        | Ok b m'' out' => Ok b m'' (out ++ out')
        | Raise e => Raise e
        | OutOfFuel => OutOfFuel
        end
    | Raise e => Raise e
    | OutOfFuel => OutOfFuel
    end.

Notation "'let*' x ':=' c 'in' k" := (bind c (fun x => k))
  (at level 10, x name, c at level 100, k at level 200).
Notation "c ';;' k" := (bind c (fun _ => k))
  (at level 100, k at level 200, right associativity).

Definition get : Py VendingMachine := fun m => Ok m m [].
Definition modify (f : VendingMachine -> VendingMachine) : Py unit :=
  fun m => Ok tt (f m) [].
Definition emit (out : list Output) : Py unit := fun m => Ok tt m out.
Definition print (o : Output) : Py unit := emit [o].
Definition sleep (milliseconds : Z) : Py unit := emit [Sleep milliseconds].
Definition raise {A : Type} (e : Exception) : Py A := fun _ => Raise e.

(** ** The methods of [VendingMachine] and of the state classes *)

Section Machine.

(** The module-level flag set by the GPIO import at start-up. *)
Variable hardware_present : bool.

(** [VendingMachine.__init__]: the fresh object and what it logs. *)
Definition new_machine : VendingMachine :=
  {| state := None; states := ∅; event := ""; amount := 0; change_due := 0;
     stock := list_to_map INITIAL_STOCK; coin_values := init_coin_values;
     selected_button_key := None; vend_successful := None |}.

Definition init_output : list Output := log (LogCoinValues init_coin_values).

(** [add_state]: [self.states[state.name] = state]. *)
Definition add_state (st : StateObj) : Py unit :=
  modify (fun m => set_states (<[name st := st]> (states m)) m).

(** [add_coin]: [self.amount += self.COINS[coin][1]]. *)
Definition add_coin (coin : string) : Py unit :=
  match dict_get coin COINS with
  | Some (_, value) => modify (fun m => set_amount (amount m + value) m)
  | None => raise (KeyError coin)
  end.

(** [button_action], and the body of the hardware callback
    [wrapped_button_action]. *)
Definition button_action : Py unit := modify (set_event "RETURN").

Definition wrapped_button_action : Py unit :=
  modify (set_event "RETURN") ;; emit (log LogHardwareReturn).

(** [DispenseOutput.activate]. *)
Definition activate : Py unit :=
  emit [GpioOutput DISPENSE_PIN true] ;;
  sleep 1000 ;;
  emit [GpioOutput DISPENSE_PIN false].

Definition DeliverProductState_on_entry : Py unit :=
  let* m := get in
  let product_key := event m in
  if default 0 (stock m !! product_key) >? 0 then
    match stock m !! product_key with
    | None => raise (KeyError product_key)
    | Some n =>
        modify (fun m => set_stock (<[product_key := n - 1]> (stock m)) m) ;;
        match dict_get product_key PRODUCTS with
        | None => raise (KeyError product_key)
        | Some (product_name, price) =>
            modify (fun m => set_change_due (amount m - price) m) ;;
            modify (set_amount 0) ;;
            print (PrintDispensing product_name) ;;
            sleep 500 ;;
            print (PrintDispensed product_name (n - 1)) ;;
            (if hardware_present then
               emit (log LogActivating) ;; activate ;; emit (log LogDispenseComplete)
             else ret tt) ;;
            modify (set_vend_successful (Some true))
        end
    end
  else
    print (PrintDeliverError product_key) ;;
    modify (set_vend_successful (Some false)) ;;
    let* m := get in
    match selected_button_key m with
    | Some _ => modify (set_selected_button_key None)
    | None => ret tt
    end.

Definition on_entry (c : StateClass) : Py unit :=
  match c with
  | State => ret tt
  | WaitingState => print PrintWaiting
  | AddCoinsState => let* m := get in print (PrintBalance (amount m))
  | DeliverProductState => DeliverProductState_on_entry
  | CountChangeState =>
      print PrintDispensingChange ;;
      sleep 500 ;;
      let* m := get in
      print (PrintChangeDue (change_due m)) ;;
      emit (log (LogStartingChange (change_due m))) ;;
      sleep 500
  end.

(** No class overrides [on_exit] with anything but [pass]. *)
Definition on_exit (c : StateClass) : Py unit := ret tt.

Definition go_to_state (state_name : string) : Py unit :=
  let* m := get in
  match state m with
  | Some s => emit (log (LogExiting (name s))) ;; on_exit (cls s)
  | None => ret tt
  end ;;
  let* m := get in
  match states m !! state_name with
  | None => raise (KeyError state_name)
  | Some s =>
      modify (set_state (Some s)) ;;
      emit (log (LogEntering (name s))) ;;
      on_entry (cls s)
  end.

Definition WaitingState_update : Py unit :=
  let* m := get in
  if dict_mem (event m) COINS then
    add_coin (event m) ;; go_to_state "add_coins"
  else if String.eqb (event m) "RETURN" then
    modify (set_event "")
  else ret tt.

Definition AddCoinsState_update : Py unit :=
  let* m := get in
  (if String.eqb (event m) "RETURN" then
     modify (fun m => set_change_due (amount m) m) ;;
     modify (set_amount 0) ;;
     go_to_state "count_change"
   else if dict_mem (event m) COINS then
     add_coin (event m) ;; on_entry AddCoinsState
   else if has_underscore (event m) then
     let product_key := rsplit_head (event m) in
     match dict_get product_key PRODUCTS with
     | Some (_, price) =>
         match stock m !! product_key with
         | None => raise (KeyError product_key)
         | Some n =>
             if n <=? 0 then print (PrintOutOfStock product_key)
             else if amount m >=? price then
               modify (set_selected_button_key (Some (event m))) ;;
               modify (set_event product_key) ;;
               go_to_state "deliver_product"
             else print (PrintInsufficient price)
         end
     | None => ret tt
     end
   else ret tt) ;;
  modify (set_event "").

Definition DeliverProductState_update : Py unit :=
  let* m := get in
  if change_due m >? 0 then go_to_state "count_change"
  else go_to_state "waiting".

Definition CountChangeState_update (fuel : nat) : Py unit :=
  let* m := get in
  match change_loop fuel (coin_values m) (change_due m) with
  | None => fun _ => OutOfFuel
  | Some (remaining_change, out) =>
      emit out ;;
      modify (set_change_due 0) ;;
      if remaining_change =? 0 then go_to_state "waiting" else ret tt
  end.

(** Dynamic dispatch of [state.update(machine)]. *)
Definition State_update (fuel : nat) (c : StateClass) : Py unit :=
  match c with
  | State => ret tt
  | WaitingState => WaitingState_update
  | AddCoinsState => AddCoinsState_update
  | DeliverProductState => DeliverProductState_update
  | CountChangeState => CountChangeState_update fuel
  end.

(** [VendingMachine.update]. *)
Definition update (fuel : nat) : Py unit :=
  let* m := get in
  match state m with
  | Some s => State_update fuel (cls s)
  | None => ret tt
  end.

(** ** The main program *)

(** The four registrations and the first transition. *)
Definition main_setup : Py unit :=
  add_state {| cls := WaitingState; oid := 0 |} ;;
  add_state {| cls := AddCoinsState; oid := 1 |} ;;
  add_state {| cls := DeliverProductState; oid := 2 |} ;;
  add_state {| cls := CountChangeState; oid := 3 |} ;;
  go_to_state "waiting".

Inductive LoopControl : Type := Continue | Break.

(** The hardware callback may already have stored ['RETURN'] in
    [vending.event]; the event of the GUI is taken only when it has not. *)
Definition accept_event (e : string) : Py unit :=
  let* m := get in
  if String.eqb (event m) "RETURN" then ret tt
  else modify (set_event e).

(** After the update: once the machine has left [deliver_product] with a
    successful vend, the frame of the button that was pressed is hidden. *)
Definition hide_sold_button : Py unit :=
  let* m := get in
  match state m with
  | None => raise (AttributeError "name")
  | Some s =>
      if negb (String.eqb (name s) "deliver_product")
         && match vend_successful m with Some b => b | None => false end
      then
        match selected_button_key m with
        | None => raise (AttributeError "selected_button_key")
        | Some button_to_hide_key =>
            emit [HideFrame button_to_hide_key] ;;
            modify (set_vend_successful (Some false)) ;;
            modify (set_selected_button_key None)
        end
      else ret tt
  end.

(** One pass of [while True]: [gui_event] is what [window.read] returned,
    [None] for the closed window. *)
Definition main_loop_body (fuel : nat) (gui_event : option string) : Py LoopControl :=
  match gui_event with
  | None => ret Break
  | Some e =>
      if String.eqb e "Exit" then ret Break
      else
        accept_event e ;;
        update fuel ;;
        hide_sold_button ;;
        modify (set_event "") ;;
        ret Continue
  end.

(** The loop on the events the window delivers, one per pass.  Closing the
    window ends it; what the program does after the loop touches nothing of
    the machine. *)
Fixpoint main_loop (fuel : nat) (gui_events : list string) : Py unit :=
  match gui_events with
  | [] => ret tt
  | e :: rest =>
      let* c := main_loop_body fuel (Some e) in
      match c with
      | Break => ret tt
      | Continue => main_loop fuel rest
      end
  end.

(** The program from the construction of the machine on. *)
Definition main (fuel : nat) (gui_events : list string) : result unit :=
  (emit init_output ;; main_setup ;; main_loop fuel gui_events) new_machine.

End Machine.

(** ** Executions *)

(** The machines the program can be in between two passes of its loop: the
    one [main_setup] leaves, and from there any pass on any GUI event; with
    the hardware present, the button callback may run between passes (a
    callback that fires while a pass is running is outside this model). *)
Inductive reachable (hw : bool) : VendingMachine -> Prop :=
  | reach_setup (m : VendingMachine) (out : list Output) :
      main_setup hw new_machine = Ok tt m out -> reachable hw m
  | reach_pass (m m' : VendingMachine) (fuel : nat) (e : string) (out : list Output) :
      reachable hw m ->
      main_loop_body hw fuel (Some e) m = Ok Continue m' out ->
      reachable hw m'
  | reach_button (m m' : VendingMachine) (out : list Output) :
      hw = true ->
      reachable hw m ->
      wrapped_button_action m = Ok tt m' out ->
      reachable hw m'.

(** The class of the active state. *)
Definition active (m : VendingMachine) : option StateClass := cls <$> state m.

(** Every class but the base class is registered under its name. *)
Definition registry_ok (m : VendingMachine) : Prop :=
  forall c, c <> State -> exists s, states m !! _NAME c = Some s /\ cls s = c.

(** What each phase guarantees about the two amounts and about the
    attributes that the button retirement reads. *)
Definition phase_ok (c : StateClass) (m : VendingMachine) : Prop :=
  match c with
  | State => False
  | WaitingState =>
      amount m = 0 /\ change_due m = 0 /\ vend_successful m <> Some true
  | AddCoinsState =>
      0 < amount m /\ change_due m = 0 /\ vend_successful m <> Some true
  | DeliverProductState =>
      amount m = 0 /\ vend_successful m = Some true
      /\ selected_button_key m <> None
  | CountChangeState =>
      amount m = 0 /\ 0 < change_due m /\ vend_successful m <> Some true
  end.

(** The invariant of the loop. *)
Record Inv (m : VendingMachine) : Prop := {
  inv_registry : registry_ok m;
  inv_event : event m = "" \/ event m = "RETURN";
  inv_amount : 0 <= amount m /\ amount m mod 5 = 0;
  inv_change : 0 <= change_due m /\ change_due m mod 5 = 0;
  inv_products :
    forall k v, dict_get k PRODUCTS = Some v -> exists n, stock m !! k = Some n;
  inv_stock : forall k n, stock m !! k = Some n -> 0 <= n;
  inv_coins : coin_values m = [200; 100; 25; 10; 5];
  inv_phase : exists s, state m = Some s /\ phase_ok (cls s) m
}.



(** The output of a successful dispense. *)
Definition dispense_output (hw : bool) (product_name : string) (left : Z)
  : list Output :=
  [PrintDispensing product_name; Sleep 500; PrintDispensed product_name left]
  ++ (if hw then [LogActivating; GpioOutput DISPENSE_PIN true; Sleep 1000;
                  GpioOutput DISPENSE_PIN false; LogDispenseComplete]
      else []).

(** The machine a successful selection leaves behind. *)
Definition sold (m : VendingMachine) (s : StateObj) (product_key : string)
    (price n : Z) : VendingMachine :=
  {| state := Some s; states := states m; event := ""; amount := 0;
     change_due := amount m - price;
     stock := <[product_key := n - 1]> (stock m);
     coin_values := coin_values m;
     selected_button_key := Some (event m);
     vend_successful := Some true |}.

(** The transitions of the state machine: from each phase, the phases one
    pass of the loop can end in. *)
Definition next_ok (c c' : StateClass) : bool :=
  match c, c' with
  | WaitingState, (WaitingState | AddCoinsState) => true
  | AddCoinsState, (AddCoinsState | CountChangeState | DeliverProductState) => true
  | DeliverProductState, (CountChangeState | WaitingState) => true
  | CountChangeState, WaitingState => true
  | _, _ => false
  end.

(** The machine [main_setup] leaves behind. *)
Definition setup_machine : VendingMachine :=
  {| state := Some {| cls := WaitingState; oid := 0 |};
     states :=
       <["count_change" := {| cls := CountChangeState; oid := 3 |}]>
         (<["deliver_product" := {| cls := DeliverProductState; oid := 2 |}]>
            (<["add_coins" := {| cls := AddCoinsState; oid := 1 |}]>
               (<["waiting" := {| cls := WaitingState; oid := 0 |}]> ∅)));
     event := ""; amount := 0; change_due := 0;
     stock := list_to_map INITIAL_STOCK;
     coin_values := init_coin_values;
     selected_button_key := None; vend_successful := None |}.

(** A machine set up the way the tests do it, by assignment: in
    [add_coins] with 100 cents held, the resistors sold out, and the
    product key of a resistor as the pending event. *)
Definition sold_out_machine : VendingMachine :=
  set_event "res"
    (set_amount 100
       (set_stock (<["res" := 0]> (stock setup_machine))
          (set_state (Some {| cls := AddCoinsState; oid := 1 |}) setup_machine))).

(** The test set-up for the change phase, with a change due that no coin
    divides: [machine.change_due = 3; machine.go_to_state('count_change');
    machine.update()]. *)
Definition change_of_3 (hw : bool) (fuel : nat) : result unit :=
  (main_setup hw ;;
   modify (set_change_due 3) ;;
   go_to_state hw "count_change" ;;
   update hw fuel) new_machine.

(** The machine of the change test: [machine.change_due = 175;
    machine.go_to_state('count_change')]. *)
Definition change_of_175_machine : VendingMachine :=
  set_state (Some {| cls := CountChangeState; oid := 3 |})
    (set_change_due 175 setup_machine).

(** The machine of the insufficient-funds test: 100 cents held in
    [add_coins], and the first transistor button pressed. *)
Definition short_of_funds_machine : VendingMachine :=
  set_event "transistor_0"
    (set_amount 100
       (set_state (Some {| cls := AddCoinsState; oid := 1 |}) setup_machine)).

(** ** The keys of the GUI *)

(** [str(i)] for an index of [range]. *)
Definition index_text (i : nat) : string :=
  DecimalString.NilEmpty.string_of_uint (Nat.to_uint i).

(** The keys of the buttons of one product, [f"{product_key}_{i}"] for [i]
    in [range(stock_count)]. *)
Definition product_button_keys (product_key : string) (stock_count : Z)
  : list string :=
  map (fun i => button_key product_key (index_text i))
      (seq 0 (Z.to_nat stock_count)).

(** The keys of all product buttons, in the order the layout creates them:
    for each product of [PRODUCTS], [INITIAL_STOCK.get(product_key, 0)]
    buttons. *)
Definition gui_button_keys : list string :=
  flat_map
    (fun p => product_button_keys (fst p) (default 0 (dict_get (fst p) INITIAL_STOCK)))
    PRODUCTS.

(** The key of the frame around a button, [f'FRAME_{button_key}']. *)
Definition frame_key (key : string) : string := ("FRAME_" ++ key)%string.

(** ** What a pass does to the funds and to the stock *)

(** The event a pass acts on: a ['RETURN'] stored by the hardware callback
    takes the place of the event of the GUI. *)
Definition effective_event (m : VendingMachine) (e : string) : string :=
  if String.eqb (event m) "RETURN" then "RETURN" else e.

(** The value of an event as a coin, zero when it is no coin key. *)
Definition credited (e : string) : Z :=
  match dict_get e COINS with
  | Some (_, v) => v
  | None => 0
  end.

(** The five things a pass can do, seen from the funds, the stock and the
    coins handed back: take a coin, start a refund, sell, hand back the
    change, or leave everything alone. *)
Inductive pass_effect (m : VendingMachine) (e0 : string)
    (m' : VendingMachine) (out : list Output) : Prop :=
  | effect_coin (l : string) (v : Z) :
      active m = Some WaitingState \/ active m = Some AddCoinsState ->
      dict_get e0 COINS = Some (l, v) ->
      amount m' = amount m + v -> change_due m' = change_due m ->
      stock m' = stock m -> coins_emitted out = [] ->
      pass_effect m e0 m' out
  | effect_refund :
      active m = Some AddCoinsState -> e0 = "RETURN" ->
      amount m' = 0 -> change_due m' = amount m ->
      stock m' = stock m -> coins_emitted out = [] ->
      pass_effect m e0 m' out
  | effect_sale (product_name : string) (price n : Z) :
      active m = Some AddCoinsState ->
      has_underscore e0 = true ->
      dict_get (rsplit_head e0) PRODUCTS = Some (product_name, price) ->
      stock m !! rsplit_head e0 = Some n -> 0 < n -> price <= amount m ->
      amount m' = 0 -> change_due m' = amount m - price ->
      stock m' = <[rsplit_head e0 := n - 1]> (stock m) ->
      coins_emitted out = [] ->
      pass_effect m e0 m' out
  | effect_change :
      active m = Some CountChangeState ->
      amount m' = amount m -> change_due m' = 0 ->
      stock m' = stock m -> total (coins_emitted out) = change_due m ->
      pass_effect m e0 m' out
  | effect_none :
      (active m = Some WaitingState \/ active m = Some AddCoinsState ->
       dict_get e0 COINS = None) ->
      amount m' = amount m -> change_due m' = change_due m ->
      stock m' = stock m -> coins_emitted out = [] ->
      pass_effect m e0 m' out.

(** The machine after the hardware button was pressed in [waiting]. *)
Definition button_pressed_machine : VendingMachine :=
  set_event "RETURN" setup_machine.

(** The machine after one 100-cent coin, and the machine after the button
    of a capacitor was then pressed. *)
Definition funded_machine : VendingMachine :=
  set_amount 100
    (set_state (Some {| cls := AddCoinsState; oid := 1 |}) setup_machine).

Definition cap_sold_machine : VendingMachine :=
  sold (set_event "cap_2" funded_machine)
       {| cls := DeliverProductState; oid := 2 |} "cap" 50 4.


(** What a trace sends to the pins, in order. *)
Fixpoint gpio_events (out : list Output) : list (Z * bool) :=
  match out with
  | [] => []
  | GpioOutput pin high :: out' => (pin, high) :: gpio_events out'
  | _ :: out' => gpio_events out'
  end.


(** * Properties *)

(** ** The constructor's coin list *)

Lemma insert_desc_perm (x : Z) (l : list Z) : Permutation (x :: l) (insert_desc x l).
Proof.
  induction l as [|y l IH]; simpl; [reflexivity|].
  destruct (x <=? y); [|reflexivity].
  rewrite perm_swap. now apply perm_skip.
Qed.

Lemma sorted_reverse_perm_acc (l acc : list Z) :
  Permutation (acc ++ l) (fold_left (fun a x => insert_desc x a) l acc).
Proof.
  revert acc; induction l as [|x l IH]; intros acc; simpl.
  - now rewrite app_nil_r.
  - rewrite <- IH, <- insert_desc_perm. simpl.
    symmetry. apply Permutation_middle.
Qed.

Lemma sorted_reverse_perm (l : list Z) : Permutation l (sorted_reverse l).
Proof. exact (sorted_reverse_perm_acc l []). Qed.

Lemma insert_desc_sorted (x : Z) (l : list Z) :
  Sorted Z.ge l -> Sorted Z.ge (insert_desc x l).
Proof.
  induction 1 as [|y l Hs IH Hhd]; simpl.
  - repeat constructor.
  - destruct (Z.leb_spec x y).
    + constructor; [exact IH|].
      destruct l as [|z l]; simpl.
      * constructor; lia.
      * inversion Hhd; subst. destruct (x <=? z); constructor; lia.
    + constructor; [now constructor|]. constructor; lia.
Qed.

Lemma sorted_reverse_sorted (l : list Z) : Sorted Z.ge (sorted_reverse l).
Proof.
  unfold sorted_reverse.
  assert (H : forall acc, Sorted Z.ge acc ->
            Sorted Z.ge (fold_left (fun a x => insert_desc x a) l acc)).
  { induction l as [|x l IH]; intros acc Hacc; simpl; [exact Hacc|].
    apply IH. now apply insert_desc_sorted. }
  apply H. constructor.
Qed.

Lemma init_coin_values_eq : init_coin_values = [200; 100; 25; 10; 5].
Proof. reflexivity. Qed.

(** ** The change loop *)

Lemma coins_emitted_app (a b : list Output) :
  coins_emitted (a ++ b) = coins_emitted a ++ coins_emitted b.
Proof.
  induction a as [|o a IH]; simpl; [reflexivity|].
  destruct o; simpl; rewrite IH; reflexivity.
Qed.

Lemma total_app (a b : list Z) : total (a ++ b) = total a + total b.
Proof. induction a as [|x a IH]; simpl; [reflexivity|]. unfold total in *. simpl. lia. Qed.

Lemma total_repeat (c : Z) (n : nat) : total (repeat c n) = c * Z.of_nat n.
Proof.
  induction n as [|n IH]; [simpl; lia|].
  change (total (repeat c (S n))) with (c + total (repeat c n)). lia.
Qed.

(** With a positive coin and enough fuel the inner loop hands back
    [remaining / c] coins and leaves [remaining mod c]. *)
Lemma return_coins_pos (fuel : nat) (c r : Z) :
  0 < c -> 0 <= r -> r / c < Z.of_nat fuel ->
  exists out, return_coins fuel c r = Some (r mod c, out)
              /\ coins_emitted out = repeat c (Z.to_nat (r / c)).
Proof.
  revert r; induction fuel as [|fuel IH]; intros r Hc Hr Hf.
  - assert (0 <= r / c) by (apply Z.div_pos; lia). lia.
  - simpl. destruct (Z.geb_spec r c) as [Hge|Hlt].
    + assert (Hd : (r - c) / c = r / c - 1).
      { replace (r - c) with (r + (-1) * c) by lia. rewrite Z.div_add by lia. lia. }
      assert (Hm : (r - c) mod c = r mod c).
      { replace (r - c) with (r + (-1) * c) by lia. now rewrite Z.mod_add by lia. }
      destruct (IH (r - c)) as (out & E & Hout); [lia|lia|lia|].
      rewrite E, Hm. eexists; split; [reflexivity|].
      simpl. rewrite Hout, Hd.
      assert (1 <= r / c) by (apply Z.div_le_lower_bound; lia).
      replace (Z.to_nat (r / c)) with (S (Z.to_nat (r / c - 1))) by lia.
      reflexivity.
    + rewrite Z.mod_small, Z.div_small by lia.
      eexists; split; reflexivity.
Qed.

(** Below the coin value the inner loop does nothing, whatever the sign. *)
Lemma return_coins_below (fuel : nat) (c r : Z) :
  r < c -> return_coins (S fuel) c r = Some (r, []).
Proof. intros H. simpl. destruct (Z.geb_spec r c); [lia|reflexivity]. Qed.

Lemma change_loop_cons (fuel : nat) (c : Z) (rest : list Z) (r r1 r2 : Z)
    (out1 out2 : list Output) :
  return_coins fuel c r = Some (r1, out1) ->
  change_loop fuel rest r1 = Some (r2, out2) ->
  change_loop fuel (c :: rest) r = Some (r2, out1 ++ out2).
Proof. intros H1 H2. simpl. now rewrite H1, H2. Qed.

(** The loop of the source against the decomposition the specification
    describes, for the coin list of the constructor and any amount. *)
Lemma change_loop_greedy (fuel : nat) (cd : Z) :
  0 <= cd -> cd / 5 < Z.of_nat fuel ->
  exists out, change_loop fuel init_coin_values cd = Some (cd mod 5, out)
              /\ coins_emitted out = greedy_spec cd.
Proof.
  intros Hcd Hf. rewrite init_coin_values_eq.
  set (r200 := cd mod 200). set (r100 := r200 mod 100).
  set (r25 := r100 mod 25). set (r10 := r25 mod 10).
  assert (B200 : 0 <= r200 < 200) by (apply Z.mod_pos_bound; lia).
  assert (B100 : 0 <= r100 < 100) by (apply Z.mod_pos_bound; lia).
  assert (B25 : 0 <= r25 < 25) by (apply Z.mod_pos_bound; lia).
  assert (B10 : 0 <= r10 < 10) by (apply Z.mod_pos_bound; lia).
  assert (F0 : cd / 200 <= cd / 5).
  { apply Z.div_le_compat_l; lia. }
  assert (Fs : forall r c, 0 <= r <= cd -> 5 <= c -> r / c <= cd / 5).
  { intros r c Hr Hc. transitivity (r / 5).
    - apply Z.div_le_compat_l; lia.
    - apply Z.div_le_mono; lia. }
  assert (L200 : r200 <= cd) by (apply Z.mod_le; lia).
  assert (L100 : r100 <= r200) by (apply Z.mod_le; lia).
  assert (L25 : r25 <= r100) by (apply Z.mod_le; lia).
  assert (L10 : r10 <= r25) by (apply Z.mod_le; lia).
  destruct (return_coins_pos fuel 200 cd) as (o1 & E1 & C1); [lia|lia|lia|].
  destruct (return_coins_pos fuel 100 r200) as (o2 & E2 & C2);
    [lia|lia|specialize (Fs r200 100); lia|].
  destruct (return_coins_pos fuel 25 r100) as (o3 & E3 & C3);
    [lia|lia|specialize (Fs r100 25); lia|].
  destruct (return_coins_pos fuel 10 r25) as (o4 & E4 & C4);
    [lia|lia|specialize (Fs r25 10); lia|].
  destruct (return_coins_pos fuel 5 r10) as (o5 & E5 & C5);
    [lia|lia|specialize (Fs r10 5); lia|].
  assert (Hm : r10 mod 5 = cd mod 5).
  { subst r10 r25 r100 r200. clear. Z.div_mod_to_equations. lia. }
  exists (o1 ++ o2 ++ o3 ++ o4 ++ o5 ++ []). split.
  - rewrite <- Hm.
    repeat (eapply change_loop_cons; [eassumption|]). reflexivity.
  - rewrite !coins_emitted_app, C1, C2, C3, C4, C5. simpl.
    rewrite app_nil_r. reflexivity.
Qed.

Lemma greedy_spec_total (cd : Z) : 0 <= cd -> total (greedy_spec cd) = cd - cd mod 5.
Proof.
  intros Hcd. unfold greedy_spec. cbv zeta.
  rewrite !total_app, !total_repeat.
  assert (H200 : 0 <= cd / 200) by (apply Z.div_pos; lia).
  assert (H100 : 0 <= (cd mod 200) / 100) by (apply Z.div_pos; [apply Z.mod_pos_bound|]; lia).
  assert (H25 : 0 <= (cd mod 200 mod 100) / 25) by (apply Z.div_pos; [apply Z.mod_pos_bound|]; lia).
  assert (H10 : 0 <= (cd mod 200 mod 100 mod 25) / 10) by (apply Z.div_pos; [apply Z.mod_pos_bound|]; lia).
  assert (H5 : 0 <= (cd mod 200 mod 100 mod 25 mod 10) / 5) by (apply Z.div_pos; [apply Z.mod_pos_bound|]; lia).
  rewrite !Z2Nat.id by assumption.
  clear. Z.div_mod_to_equations. lia.
Qed.



(** ** Button keys *)

(** [rsplit] undoes the key the GUI builds. *)
Lemma before_last_underscore_None (s : string) :
  has_underscore s = false -> before_last_underscore s = None.
Proof.
  induction s as [|c s IH]; [reflexivity|].
  simpl. destruct (Ascii.eqb c underscore); [discriminate|].
  intros H. now rewrite IH.
Qed.

Lemma before_last_underscore_button_key (product_key i : string) :
  has_underscore i = false ->
  before_last_underscore (button_key product_key i) = Some product_key.
Proof.
  intros Hi. unfold button_key.
  induction product_key as [|c p IH]; simpl.
  - rewrite (before_last_underscore_None i Hi). reflexivity.
  - rewrite IH. reflexivity.
Qed.

Lemma rsplit_head_button_key (product_key i : string) :
  has_underscore i = false -> rsplit_head (button_key product_key i) = product_key.
Proof.
  intros Hi. unfold rsplit_head.
  now rewrite before_last_underscore_button_key.
Qed.

Lemma has_underscore_button_key (product_key i : string) :
  has_underscore (button_key product_key i) = true.
Proof.
  unfold button_key.
  induction product_key as [|c p IH]; [reflexivity|].
  simpl. destruct (Ascii.eqb c underscore); [reflexivity|exact IH].
Qed.

(** ** What each call does, branch by branch *)

#[local] Arguments dict_get : simpl never.
#[local] Arguments dict_mem : simpl never.
#[local] Arguments has_underscore : simpl never.
#[local] Arguments rsplit_head : simpl never.
#[local] Arguments change_loop : simpl never.
#[local] Arguments String.eqb : simpl never.

Lemma dict_mem_get {V : Type} (k : string) (d : list (string * V)) (v : V) :
  dict_get k d = Some v -> dict_mem k d = true.
Proof. unfold dict_mem. now intros ->. Qed.

Lemma dict_mem_false {V : Type} (k : string) (d : list (string * V)) :
  dict_mem k d = false -> dict_get k d = None.
Proof. unfold dict_mem. destruct (dict_get k d); [discriminate|reflexivity]. Qed.

Lemma dict_get_cons {V : Type} (k k' : string) (v : V) (d : list (string * V)) :
  dict_get k ((k', v) :: d) = if String.eqb k k' then Some v else dict_get k d.
Proof. reflexivity. Qed.

(** The keys of [COINS] and what they are worth. *)
Lemma COINS_cases (e l : string) (v : Z) :
  dict_get e COINS = Some (l, v) ->
  (e = "5" /\ v = 5) \/ (e = "10" /\ v = 10) \/ (e = "25" /\ v = 25)
  \/ (e = "100" /\ v = 100) \/ (e = "200" /\ v = 200).
Proof.
  unfold COINS. rewrite !dict_get_cons.
  repeat match goal with
         | |- context [String.eqb e ?k] =>
             destruct (String.eqb_spec e k) as [->|_];
             [intros [= <- <-]; tauto|]
         end.
  discriminate.
Qed.

Lemma COINS_value (e l : string) (v : Z) :
  dict_get e COINS = Some (l, v) -> 0 < v /\ v mod 5 = 0.
Proof.
  intros H. apply COINS_cases in H.
  destruct H as [[_ ->]|[[_ ->]|[[_ ->]|[[_ ->]|[_ ->]]]]]; now split.
Qed.

Lemma COINS_not_RETURN (e l : string) (v : Z) :
  dict_get e COINS = Some (l, v) -> String.eqb e "RETURN" = false.
Proof.
  intros H. apply COINS_cases in H.
  destruct H as [[-> _]|[[-> _]|[[-> _]|[[-> _]|[-> _]]]]]; reflexivity.
Qed.


(** The keys of [PRODUCTS] and their prices. *)
Lemma PRODUCTS_cases (k nm : string) (price : Z) :
  dict_get k PRODUCTS = Some (nm, price) ->
  (k = "diode" /\ price = 75) \/ (k = "transistor" /\ price = 150)
  \/ (k = "cap" /\ price = 50) \/ (k = "res" /\ price = 5).
Proof.
  unfold PRODUCTS. rewrite !dict_get_cons.
  repeat match goal with
         | |- context [String.eqb k ?k'] =>
             destruct (String.eqb_spec k k') as [->|_];
             [intros [= <- <-]; tauto|]
         end.
  discriminate.
Qed.

Lemma PRODUCTS_price (k nm : string) (price : Z) :
  dict_get k PRODUCTS = Some (nm, price) -> 0 < price /\ price mod 5 = 0.
Proof.
  intros H. apply PRODUCTS_cases in H.
  destruct H as [[_ ->]|[[_ ->]|[[_ ->]|[_ ->]]]]; now split.
Qed.

(** A string with a separator is neither ['RETURN'] nor a coin key. *)
Lemma has_underscore_not_RETURN (e : string) :
  has_underscore e = true -> String.eqb e "RETURN" = false.
Proof.
  intros H. destruct (String.eqb_spec e "RETURN") as [->|_]; [discriminate|reflexivity].
Qed.

Lemma has_underscore_not_coin (e : string) :
  has_underscore e = true -> dict_mem e COINS = false.
Proof.
  intros H. unfold dict_mem. destruct (dict_get e COINS) as [[l v]|] eqn:E; [|reflexivity].
  apply COINS_cases in E.
  destruct E as [[-> _]|[[-> _]|[[-> _]|[[-> _]|[-> _]]]]]; discriminate.
Qed.

(** [go_to_state] from an active state to a registered one. *)
Lemma go_to_state_eq (hw : bool) (n : string) (m : VendingMachine) (s0 s : StateObj) :
  state m = Some s0 -> states m !! n = Some s ->
  go_to_state hw n m =
    match on_entry hw (cls s) (set_state (Some s) m) with
    | Ok _ m' out => Ok tt m' (LogExiting (name s0) :: LogEntering (name s) :: out)
    | Raise e => Raise e
    | OutOfFuel => OutOfFuel
    end.
Proof.
  intros Hs Hl. unfold go_to_state, bind, get. simpl. rewrite Hs. simpl.
  rewrite Hl. simpl.
  destruct (on_entry hw (cls s) (set_state (Some s) m)) as [[] ? ?| |]; reflexivity.
Qed.

Lemma go_to_waiting (hw : bool) (m : VendingMachine) (s0 s : StateObj) :
  state m = Some s0 -> states m !! "waiting" = Some s -> cls s = WaitingState ->
  go_to_state hw "waiting" m =
    Ok tt (set_state (Some s) m)
       [LogExiting (name s0); LogEntering "waiting"; PrintWaiting].
Proof.
  intros Hs Hl Hc. rewrite (go_to_state_eq hw _ m s0 s Hs Hl).
  unfold name. rewrite Hc. reflexivity.
Qed.

Lemma go_to_add_coins (hw : bool) (m : VendingMachine) (s0 s : StateObj) :
  state m = Some s0 -> states m !! "add_coins" = Some s -> cls s = AddCoinsState ->
  go_to_state hw "add_coins" m =
    Ok tt (set_state (Some s) m)
       [LogExiting (name s0); LogEntering "add_coins"; PrintBalance (amount m)].
Proof.
  intros Hs Hl Hc. rewrite (go_to_state_eq hw _ m s0 s Hs Hl).
  unfold name. rewrite Hc. reflexivity.
Qed.

Lemma go_to_count_change (hw : bool) (m : VendingMachine) (s0 s : StateObj) :
  state m = Some s0 -> states m !! "count_change" = Some s ->
  cls s = CountChangeState ->
  go_to_state hw "count_change" m =
    Ok tt (set_state (Some s) m)
       [LogExiting (name s0); LogEntering "count_change"; PrintDispensingChange;
        Sleep 500; PrintChangeDue (change_due m);
        LogStartingChange (change_due m); Sleep 500].
Proof.
  intros Hs Hl Hc. rewrite (go_to_state_eq hw _ m s0 s Hs Hl).
  unfold name. rewrite Hc. reflexivity.
Qed.

(** Entry to [deliver_product] with the product in stock. *)
Lemma deliver_on_entry_success (hw : bool) (m : VendingMachine)
    (nm : string) (price n : Z) :
  stock m !! event m = Some n -> 0 < n ->
  dict_get (event m) PRODUCTS = Some (nm, price) ->
  DeliverProductState_on_entry hw m =
    Ok tt (set_vend_successful (Some true)
             (set_amount 0
                (set_change_due (amount m - price)
                   (set_stock (<[event m := n - 1]> (stock m)) m))))
       (dispense_output hw nm (n - 1)).
Proof.
  intros Hn Hpos Hp. unfold DeliverProductState_on_entry, bind, get. simpl.
  rewrite Hn. simpl. destruct (Z.gtb_spec n 0) as [_|]; [|lia].
  simpl. rewrite Hp. destruct hw; reflexivity.
Qed.

(** Entry to [deliver_product] with nothing in stock: only the two
    run-time attributes change. *)
Lemma deliver_on_entry_failure (hw : bool) (m : VendingMachine) :
  default 0 (stock m !! event m) <= 0 ->
  exists m',
    DeliverProductState_on_entry hw m = Ok tt m' [PrintDeliverError (event m)]
    /\ state m' = state m /\ states m' = states m /\ event m' = event m
    /\ amount m' = amount m /\ change_due m' = change_due m
    /\ stock m' = stock m /\ coin_values m' = coin_values m
    /\ vend_successful m' = Some false /\ selected_button_key m' = None.
Proof.
  intros H. unfold DeliverProductState_on_entry, bind, get. simpl.
  destruct (Z.gtb_spec (default 0 (stock m !! event m)) 0) as [|_]; [lia|].
  simpl. destruct (selected_button_key m) eqn:E; simpl;
    eexists; (split; [reflexivity|]); simpl; repeat split; assumption.
Qed.

(** *** [WaitingState.update] *)

Lemma waiting_update_coin (hw : bool) (m : VendingMachine) (l : string) (v : Z)
    (s0 s : StateObj) :
  dict_get (event m) COINS = Some (l, v) ->
  state m = Some s0 -> states m !! "add_coins" = Some s -> cls s = AddCoinsState ->
  WaitingState_update hw m =
    Ok tt (set_state (Some s) (set_amount (amount m + v) m))
       [LogExiting (name s0); LogEntering "add_coins"; PrintBalance (amount m + v)].
Proof.
  intros He Hs Hl Hc. unfold WaitingState_update, bind, get. simpl.
  rewrite (dict_mem_get _ _ _ He). unfold add_coin. rewrite He. simpl.
  rewrite (go_to_add_coins hw _ s0 s) by assumption. reflexivity.
Qed.

Lemma waiting_update_return (hw : bool) (m : VendingMachine) :
  event m = "RETURN" ->
  WaitingState_update hw m = Ok tt (set_event "" m) [].
Proof.
  intros He. unfold WaitingState_update, bind, get. simpl. rewrite He. reflexivity.
Qed.

Lemma waiting_update_other (hw : bool) (m : VendingMachine) :
  dict_mem (event m) COINS = false -> event m <> "RETURN" ->
  WaitingState_update hw m = Ok tt m [].
Proof.
  intros Hc Hr. unfold WaitingState_update, bind, get. simpl. rewrite Hc.
  apply String.eqb_neq in Hr. rewrite Hr. reflexivity.
Qed.

(** *** [AddCoinsState.update] *)

Lemma add_coins_update_return (hw : bool) (m : VendingMachine) (s0 s : StateObj) :
  event m = "RETURN" ->
  state m = Some s0 -> states m !! "count_change" = Some s ->
  cls s = CountChangeState ->
  AddCoinsState_update hw m =
    Ok tt (set_event ""
             (set_state (Some s) (set_amount 0 (set_change_due (amount m) m))))
       [LogExiting (name s0); LogEntering "count_change"; PrintDispensingChange;
        Sleep 500; PrintChangeDue (amount m); LogStartingChange (amount m);
        Sleep 500].
Proof.
  intros He Hs Hl Hc. unfold AddCoinsState_update, bind, get. simpl.
  rewrite He. change (String.eqb "RETURN" "RETURN") with true. simpl.
  rewrite (go_to_count_change hw _ s0 s) by assumption. reflexivity.
Qed.

Lemma add_coins_update_coin (hw : bool) (m : VendingMachine) (l : string) (v : Z) :
  dict_get (event m) COINS = Some (l, v) ->
  AddCoinsState_update hw m =
    Ok tt (set_event "" (set_amount (amount m + v) m))
       [PrintBalance (amount m + v)].
Proof.
  intros He. unfold AddCoinsState_update, bind, get. simpl.
  rewrite (COINS_not_RETURN _ _ _ He), (dict_mem_get _ _ _ He).
  unfold add_coin. rewrite He. reflexivity.
Qed.

(** The shape of a selection: a key with a separator whose head names a
    product that the stock table knows. *)
Lemma add_coins_update_select (hw : bool) (m : VendingMachine)
    (nm : string) (price n : Z) :
  has_underscore (event m) = true ->
  dict_get (rsplit_head (event m)) PRODUCTS = Some (nm, price) ->
  stock m !! rsplit_head (event m) = Some n ->
  AddCoinsState_update hw m =
    ((if n <=? 0 then print (PrintOutOfStock (rsplit_head (event m)))
      else if amount m >=? price then
        modify (set_selected_button_key (Some (event m))) ;;
        modify (set_event (rsplit_head (event m))) ;;
        go_to_state hw "deliver_product"
      else print (PrintInsufficient price)) ;;
     modify (set_event "")) m.
Proof.
  intros Hu Hp Hn. unfold AddCoinsState_update at 1. unfold bind at 1 2. unfold get at 1.
  rewrite (has_underscore_not_RETURN _ Hu), (has_underscore_not_coin _ Hu), Hu, Hp, Hn.
  unfold bind. simpl.
  destruct (n <=? 0); [reflexivity|].
  destruct (amount m >=? price); [|reflexivity].
  simpl.
  destruct (go_to_state hw "deliver_product" _) as [[] ? ?| |]; reflexivity.
Qed.

Lemma add_coins_update_out_of_stock (hw : bool) (m : VendingMachine)
    (nm : string) (price n : Z) :
  has_underscore (event m) = true ->
  dict_get (rsplit_head (event m)) PRODUCTS = Some (nm, price) ->
  stock m !! rsplit_head (event m) = Some n ->
  n <= 0 ->
  AddCoinsState_update hw m =
    Ok tt (set_event "" m) [PrintOutOfStock (rsplit_head (event m))].
Proof.
  intros Hu Hp Hn Hle. rewrite (add_coins_update_select hw m nm price n) by assumption.
  destruct (Z.leb_spec n 0); [reflexivity|lia].
Qed.

Lemma add_coins_update_insufficient (hw : bool) (m : VendingMachine)
    (nm : string) (price n : Z) :
  has_underscore (event m) = true ->
  dict_get (rsplit_head (event m)) PRODUCTS = Some (nm, price) ->
  stock m !! rsplit_head (event m) = Some n ->
  0 < n -> amount m < price ->
  AddCoinsState_update hw m =
    Ok tt (set_event "" m) [PrintInsufficient price].
Proof.
  intros Hu Hp Hn Hpos Hlt. rewrite (add_coins_update_select hw m nm price n) by assumption.
  destruct (Z.leb_spec n 0); [lia|].
  destruct (Z.geb_spec (amount m) price); [lia|reflexivity].
Qed.

Lemma add_coins_update_sold (hw : bool) (m : VendingMachine)
    (nm : string) (price n : Z) (s0 s : StateObj) :
  has_underscore (event m) = true ->
  dict_get (rsplit_head (event m)) PRODUCTS = Some (nm, price) ->
  stock m !! rsplit_head (event m) = Some n ->
  0 < n -> price <= amount m ->
  state m = Some s0 -> states m !! "deliver_product" = Some s ->
  cls s = DeliverProductState ->
  AddCoinsState_update hw m =
    Ok tt (sold m s (rsplit_head (event m)) price n)
       (LogExiting (name s0) :: LogEntering "deliver_product"
        :: dispense_output hw nm (n - 1)).
Proof.
  intros Hu Hp Hn Hpos Hge Hs Hl Hc.
  rewrite (add_coins_update_select hw m nm price n) by assumption.
  destruct (Z.leb_spec n 0); [lia|].
  destruct (Z.geb_spec (amount m) price); [|lia].
  unfold bind, modify. simpl.
  erewrite go_to_state_eq; [|simpl; eassumption|simpl; eassumption].
  rewrite Hc. unfold on_entry.
  erewrite deliver_on_entry_success; [|simpl; eassumption|assumption|simpl; eassumption].
  simpl. unfold name. rewrite Hc. simpl. rewrite app_nil_r. reflexivity.
Qed.

Lemma add_coins_update_other (hw : bool) (m : VendingMachine) :
  event m <> "RETURN" -> dict_mem (event m) COINS = false ->
  (has_underscore (event m) = true ->
   dict_get (rsplit_head (event m)) PRODUCTS = None) ->
  AddCoinsState_update hw m = Ok tt (set_event "" m) [].
Proof.
  intros Hr Hc Hp. unfold AddCoinsState_update, bind, get. simpl.
  apply String.eqb_neq in Hr. rewrite Hr, Hc.
  destruct (has_underscore (event m)); [rewrite Hp by reflexivity|]; reflexivity.
Qed.

(** *** [DeliverProductState.update] *)

Lemma deliver_update_change (hw : bool) (m : VendingMachine) (s0 s : StateObj) :
  0 < change_due m ->
  state m = Some s0 -> states m !! "count_change" = Some s ->
  cls s = CountChangeState ->
  DeliverProductState_update hw m =
    Ok tt (set_state (Some s) m)
       [LogExiting (name s0); LogEntering "count_change"; PrintDispensingChange;
        Sleep 500; PrintChangeDue (change_due m);
        LogStartingChange (change_due m); Sleep 500].
Proof.
  intros Hcd Hs Hl Hc. unfold DeliverProductState_update, bind, get. simpl.
  destruct (Z.gtb_spec (change_due m) 0); [|lia].
  rewrite (go_to_count_change hw _ s0 s) by assumption. reflexivity.
Qed.

Lemma deliver_update_waiting (hw : bool) (m : VendingMachine) (s0 s : StateObj) :
  change_due m <= 0 ->
  state m = Some s0 -> states m !! "waiting" = Some s -> cls s = WaitingState ->
  DeliverProductState_update hw m =
    Ok tt (set_state (Some s) m)
       [LogExiting (name s0); LogEntering "waiting"; PrintWaiting].
Proof.
  intros Hcd Hs Hl Hc. unfold DeliverProductState_update, bind, get. simpl.
  destruct (Z.gtb_spec (change_due m) 0); [lia|].
  rewrite (go_to_waiting hw _ s0 s) by assumption. reflexivity.
Qed.

(** *** [CountChangeState.update] *)

Lemma count_change_update_eq (hw : bool) (fuel : nat) (m : VendingMachine)
    (r : Z) (out : list Output) (s0 s : StateObj) :
  change_loop fuel (coin_values m) (change_due m) = Some (r, out) ->
  state m = Some s0 -> states m !! "waiting" = Some s -> cls s = WaitingState ->
  CountChangeState_update hw fuel m =
    if r =? 0
    then Ok tt (set_state (Some s) (set_change_due 0 m))
            (out ++ [LogExiting (name s0); LogEntering "waiting"; PrintWaiting])
    else Ok tt (set_change_due 0 m) out.
Proof.
  intros Hl Hs Hw Hc. unfold CountChangeState_update, bind, get. simpl.
  rewrite Hl. simpl. destruct (r =? 0).
  - rewrite (go_to_waiting hw _ s0 s) by assumption. reflexivity.
  - simpl. rewrite app_nil_r. reflexivity.
Qed.

Lemma update_eq (hw : bool) (fuel : nat) (m : VendingMachine) (s : StateObj) :
  state m = Some s -> update hw fuel m = State_update hw fuel (cls s) m.
Proof.
  intros Hs. unfold update, bind, get. simpl. rewrite Hs.
  destruct (State_update hw fuel (cls s) m); reflexivity.
Qed.

(** ** One pass of the loop *)

Lemma set_event_id (m : VendingMachine) : set_event (event m) m = m.
Proof. destruct m; reflexivity. Qed.

Lemma accept_event_eq (e : string) (m : VendingMachine) :
  accept_event e m =
    Ok tt (set_event (if String.eqb (event m) "RETURN" then "RETURN" else e) m) [].
Proof.
  unfold accept_event, bind, get. simpl.
  destruct (String.eqb_spec (event m) "RETURN") as [E|_]; [|reflexivity].
  rewrite <- E, set_event_id. reflexivity.
Qed.

Lemma main_loop_body_eq (hw : bool) (fuel : nat) (e : string) (m : VendingMachine) :
  String.eqb e "Exit" = false ->
  main_loop_body hw fuel (Some e) m =
    match update hw fuel
            (set_event (if String.eqb (event m) "RETURN" then "RETURN" else e) m) with
    | Ok _ m1 o1 =>
        match hide_sold_button m1 with
        | Ok _ m2 o2 => Ok Continue (set_event "" m2) (o1 ++ o2)
        | Raise x => Raise x
        | OutOfFuel => OutOfFuel
        end
    | Raise x => Raise x
    | OutOfFuel => OutOfFuel
    end.
Proof.
  intros He. unfold main_loop_body. rewrite He.
  unfold bind at 1. rewrite accept_event_eq.
  unfold bind at 1. destruct (update hw fuel _) as [[] m1 o1| |]; [|reflexivity..].
  unfold bind at 1. destruct (hide_sold_button m1) as [[] m2 o2| |]; [|reflexivity..].
  unfold bind, modify, ret. simpl. rewrite !app_nil_r. reflexivity.
Qed.

Lemma main_loop_body_Exit (hw : bool) (fuel : nat) (m : VendingMachine) :
  main_loop_body hw fuel (Some "Exit") m = Ok Break m [].
Proof. reflexivity. Qed.

Lemma main_loop_body_Continue (hw : bool) (fuel : nat) (e : string)
    (m m' : VendingMachine) (out : list Output) :
  main_loop_body hw fuel (Some e) m = Ok Continue m' out ->
  String.eqb e "Exit" = false.
Proof.
  unfold main_loop_body. destruct (String.eqb e "Exit"); [discriminate|reflexivity].
Qed.

Lemma main_loop_body_Break (hw : bool) (fuel : nat) (e : string)
    (m m' : VendingMachine) (out : list Output) :
  main_loop_body hw fuel (Some e) m = Ok Break m' out -> m' = m.
Proof.
  destruct (String.eqb e "Exit") eqn:He.
  - unfold main_loop_body. rewrite He. now intros [= <- _].
  - rewrite main_loop_body_eq by exact He.
    destruct (update hw fuel _) as [[] m1 o1| |]; [|discriminate..].
    destruct (hide_sold_button m1) as [[] m2 o2| |]; discriminate.
Qed.

Lemma hide_noop (m : VendingMachine) (s : StateObj) :
  state m = Some s -> vend_successful m <> Some true ->
  hide_sold_button m = Ok tt m [].
Proof.
  intros Hs Hv. unfold hide_sold_button, bind, get. simpl. rewrite Hs.
  destruct (vend_successful m) as [[|]|]; [congruence| |];
    rewrite andb_false_r; reflexivity.
Qed.

Lemma hide_in_deliver (m : VendingMachine) (s : StateObj) :
  state m = Some s -> cls s = DeliverProductState ->
  hide_sold_button m = Ok tt m [].
Proof.
  intros Hs Hc. unfold hide_sold_button, bind, get. simpl. rewrite Hs.
  unfold name. rewrite Hc. reflexivity.
Qed.

Lemma hide_sold (m : VendingMachine) (s : StateObj) (k : string) :
  state m = Some s -> cls s <> DeliverProductState ->
  vend_successful m = Some true -> selected_button_key m = Some k ->
  hide_sold_button m =
    Ok tt (set_selected_button_key None (set_vend_successful (Some false) m))
       [HideFrame k].
Proof.
  intros Hs Hc Hv Hk. unfold hide_sold_button, bind, get. simpl. rewrite Hs, Hv.
  unfold name. destruct (cls s); try congruence; simpl; rewrite Hk; reflexivity.
Qed.

(** ** More fuel changes nothing *)

Lemma return_coins_mono (fuel fuel' : nat) (c r : Z) (x : Z * list Output) :
  return_coins fuel c r = Some x -> (fuel <= fuel')%nat ->
  return_coins fuel' c r = Some x.
Proof.
  revert fuel' r x; induction fuel as [|fuel IH]; intros fuel' r x H Hle;
    [discriminate|].
  destruct fuel' as [|fuel']; [lia|]. simpl in *.
  destruct (r >=? c); [|exact H].
  destruct (return_coins fuel c (r - c)) as [[r1 o1]|] eqn:E; [|discriminate].
  rewrite (IH fuel' _ _ E) by lia. exact H.
Qed.

Lemma change_loop_mono (fuel fuel' : nat) (cvs : list Z) (r : Z)
    (x : Z * list Output) :
  change_loop fuel cvs r = Some x -> (fuel <= fuel')%nat ->
  change_loop fuel' cvs r = Some x.
Proof.
  revert r x; induction cvs as [|c cvs IH]; intros r x H Hle; [exact H|].
  unfold change_loop in *; fold change_loop in *.
  destruct (return_coins fuel c r) as [[r1 o1]|] eqn:E1; [|discriminate].
  rewrite (return_coins_mono _ fuel' _ _ _ E1 Hle).
  destruct (change_loop fuel cvs r1) as [[r2 o2]|] eqn:E2; [|discriminate].
  rewrite (IH _ _ E2 Hle). exact H.
Qed.

Lemma update_mono (hw : bool) (fuel fuel' : nat) (m m' : VendingMachine)
    (out : list Output) :
  update hw fuel m = Ok tt m' out -> (fuel <= fuel')%nat ->
  update hw fuel' m = Ok tt m' out.
Proof.
  intros H Hle. unfold update, bind, get in *. simpl in *.
  destruct (state m) as [s|]; [|exact H].
  destruct (cls s); try exact H.
  unfold State_update, CountChangeState_update, bind, get in *. simpl in *.
  destruct (change_loop fuel (coin_values m) (change_due m)) as [x|] eqn:E;
    [|discriminate].
  rewrite (change_loop_mono _ fuel' _ _ _ E Hle). exact H.
Qed.

Lemma main_loop_body_mono (hw : bool) (fuel fuel' : nat) (e : string)
    (m m' : VendingMachine) (out : list Output) :
  main_loop_body hw fuel (Some e) m = Ok Continue m' out -> (fuel <= fuel')%nat ->
  main_loop_body hw fuel' (Some e) m = Ok Continue m' out.
Proof.
  intros H Hle. pose proof (main_loop_body_Continue _ _ _ _ _ _ H) as He.
  rewrite main_loop_body_eq in * by exact He.
  destruct (update hw fuel _) as [[] m1 o1| |] eqn:E; [|discriminate..].
  rewrite (update_mono _ _ fuel' _ _ _ E Hle). exact H.
Qed.

(** ** The invariant *)

Lemma registered (m : VendingMachine) (c : StateClass) :
  registry_ok m -> c <> State ->
  exists s, states m !! _NAME c = Some s /\ cls s = c.
Proof. intros H Hc. exact (H c Hc). Qed.

Lemma mod5_add (a b : Z) : a mod 5 = 0 -> b mod 5 = 0 -> (a + b) mod 5 = 0.
Proof. intros Ha Hb. Z.div_mod_to_equations. lia. Qed.

Lemma mod5_sub (a b : Z) : a mod 5 = 0 -> b mod 5 = 0 -> (a - b) mod 5 = 0.
Proof. intros Ha Hb. Z.div_mod_to_equations. lia. Qed.

#[local] Ltac inv_open H :=
  destruct H as [Hreg Hev [Ha Ham] [Hc Hcm] Hprod Hst Hcv (s0 & Hs0 & Hph)].

#[local] Ltac pass_result :=
  eexists; eexists; split; [reflexivity|].

#[local] Ltac inv_simple :=
  constructor; simpl;
  try solve [ assumption | now left | split; [lia | assumption]
            | split; lia | split; [lia | reflexivity] ].

#[local] Ltac edge c c' :=
  exists c, c'; simpl;
  repeat match goal with
         | H : state ?m = Some _ |- context [state ?m] => rewrite H
         end;
  simpl;
  repeat match goal with
         | H : cls ?s = _ |- context [cls ?s] => rewrite H
         end;
  repeat split.

#[local] Ltac side := simpl; first [reflexivity | assumption | discriminate | lia].

(** A pass from an invariant machine, on any event and with fuel for the
    change loop, ends; it ends in an invariant machine, along an edge of the
    transition graph. *)
Lemma pass_total (hw : bool) (fuel : nat) (e : string) (m : VendingMachine) :
  Inv m -> String.eqb e "Exit" = false -> change_due m / 5 < Z.of_nat fuel ->
  exists m' out,
    main_loop_body hw fuel (Some e) m = Ok Continue m' out
    /\ Inv m'
    /\ exists c c', active m = Some c /\ active m' = Some c' /\ next_ok c c' = true.
Proof.
  intros HI He Hfuel. inv_open HI.
  rewrite main_loop_body_eq by exact He.
  generalize (if String.eqb (event m) "RETURN" then "RETURN" else e). intros e0.
  rewrite (update_eq hw fuel (set_event e0 m) s0 Hs0).
  unfold active. rewrite Hs0. simpl fmap.
  destruct (cls s0) eqn:Hcls; simpl State_update; simpl in Hph; [contradiction| | | |].
  - (* waiting *)
    destruct Hph as (Ha0 & Hc0 & Hv).
    destruct (dict_get e0 COINS) as [[l v]|] eqn:Ecoin.
    + destruct (registered m AddCoinsState Hreg) as (s & Hl & Hcs); [discriminate|].
      rewrite (waiting_update_coin hw (set_event e0 m) l v s0 s) by assumption.
      rewrite (hide_noop _ s) by side.
      destruct (COINS_value _ _ _ Ecoin) as [Hv0 Hv5].
      pass_result. split.
      * inv_simple.
        -- split; [lia|]. now apply mod5_add.
        -- exists s. split; [reflexivity|]. rewrite Hcs. simpl. repeat split; [lia|assumption..].
      * edge WaitingState AddCoinsState.
    + assert (Hmem : dict_mem e0 COINS = false) by (unfold dict_mem; now rewrite Ecoin).
      destruct (String.eqb_spec e0 "RETURN") as [Er|Er].
      * rewrite waiting_update_return by exact Er.
        rewrite (hide_noop _ s0) by side.
        pass_result. split.
        -- inv_simple. exists s0. split; [assumption|]. rewrite Hcls. simpl. now repeat split.
        -- edge WaitingState WaitingState.
      * rewrite waiting_update_other by assumption.
        rewrite (hide_noop _ s0) by side.
        pass_result. split.
        -- inv_simple. exists s0. split; [assumption|]. rewrite Hcls. simpl. now repeat split.
        -- edge WaitingState WaitingState.
  - (* add_coins *)
    destruct Hph as (Ha0 & Hc0 & Hv).
    destruct (String.eqb_spec e0 "RETURN") as [Er|Er].
    { destruct (registered m CountChangeState Hreg) as (s & Hl & Hcs); [discriminate|].
      rewrite (add_coins_update_return hw (set_event e0 m) s0 s) by assumption.
      rewrite (hide_noop _ s) by side.
      pass_result. split.
      - inv_simple. exists s. split; [reflexivity|]. rewrite Hcs. simpl. now repeat split.
      - edge AddCoinsState CountChangeState. }
    destruct (dict_get e0 COINS) as [[l v]|] eqn:Ecoin.
    { rewrite (add_coins_update_coin hw (set_event e0 m) l v) by assumption.
      rewrite (hide_noop _ s0) by side.
      destruct (COINS_value _ _ _ Ecoin) as [Hv0 Hv5].
      pass_result. split.
      - inv_simple.
        + split; [lia|]. now apply mod5_add.
        + exists s0. split; [assumption|]. rewrite Hcls. simpl. repeat split; [lia|assumption..].
      - edge AddCoinsState AddCoinsState. }
    assert (Hmem : dict_mem e0 COINS = false) by (unfold dict_mem; now rewrite Ecoin).
    assert (Hstay : Inv (set_event "" (set_event e0 m))).
    { inv_simple. exists s0. split; [assumption|]. rewrite Hcls. simpl. now repeat split. }
    destruct (has_underscore e0) eqn:Hu;
      [destruct (dict_get (rsplit_head e0) PRODUCTS) as [[nm price]|] eqn:Ep|].
    + destruct (Hprod _ _ Ep) as [n Hn].
      destruct (PRODUCTS_price _ _ _ Ep) as [Hp0 Hp5].
      destruct (Z_le_gt_dec n 0) as [Hle|Hgt];
        [|destruct (Z_lt_le_dec (amount m) price) as [Hlt|Hge]].
      * rewrite (add_coins_update_out_of_stock hw (set_event e0 m) nm price n)
          by assumption.
        rewrite (hide_noop _ s0) by side.
        pass_result. split; [exact Hstay|].
        edge AddCoinsState AddCoinsState.
      * rewrite (add_coins_update_insufficient hw (set_event e0 m) nm price n)
          by (first [assumption | lia]).
        rewrite (hide_noop _ s0) by side.
        pass_result. split; [exact Hstay|].
        edge AddCoinsState AddCoinsState.
      * destruct (registered m DeliverProductState Hreg) as (s & Hl & Hcs);
          [discriminate|].
        rewrite (add_coins_update_sold hw (set_event e0 m) nm price n s0 s)
          by (first [assumption | lia]).
        rewrite (hide_in_deliver _ s) by side.
        pass_result. split.
        -- inv_simple.
           ++ split; [lia|]. now apply mod5_sub.
           ++ intros k v Hk. destruct (decide (rsplit_head e0 = k)) as [<-|Hne].
              ** exists (n - 1). apply lookup_insert_eq.
              ** rewrite lookup_insert_ne by exact Hne. eauto.
           ++ intros k n' Hk. destruct (decide (rsplit_head e0 = k)) as [<-|Hne].
              ** rewrite lookup_insert_eq in Hk. injection Hk as <-. lia.
              ** rewrite lookup_insert_ne in Hk by exact Hne. eauto.
           ++ exists s. split; [reflexivity|]. rewrite Hcs. simpl. now repeat split.
        -- edge AddCoinsState DeliverProductState.
    + rewrite add_coins_update_other by (simpl; first [assumption | now intros _]).
      rewrite (hide_noop _ s0) by side.
      pass_result. split; [exact Hstay|].
      edge AddCoinsState AddCoinsState.
    + rewrite add_coins_update_other by (simpl; first [assumption | congruence]).
      rewrite (hide_noop _ s0) by side.
      pass_result. split; [exact Hstay|].
      edge AddCoinsState AddCoinsState.
  - (* deliver_product *)
    destruct Hph as (Ha0 & Hv & Hk).
    destruct (selected_button_key m) as [k|] eqn:Ek; [clear Hk|congruence].
    destruct (Z_lt_le_dec 0 (change_due m)) as [Hpos|Hzero].
    + destruct (registered m CountChangeState Hreg) as (s & Hl & Hcs); [discriminate|].
      rewrite (deliver_update_change hw (set_event e0 m) s0 s) by assumption.
      rewrite (hide_sold _ s k) by (simpl; first [reflexivity | assumption | congruence]).
      pass_result. split.
      * inv_simple. exists s. split; [reflexivity|]. rewrite Hcs. simpl.
        repeat split; [assumption..|discriminate].
      * edge DeliverProductState CountChangeState.
    + destruct (registered m WaitingState Hreg) as (s & Hl & Hcs); [discriminate|].
      rewrite (deliver_update_waiting hw (set_event e0 m) s0 s) by assumption.
      rewrite (hide_sold _ s k) by (simpl; first [reflexivity | assumption | congruence]).
      pass_result. split.
      * inv_simple. exists s. split; [reflexivity|]. rewrite Hcs. simpl.
        repeat split; [assumption|lia|discriminate].
      * edge DeliverProductState WaitingState.
  - (* count_change *)
    destruct Hph as (Ha0 & Hc0 & Hv).
    destruct (registered m WaitingState Hreg) as (s & Hl & Hcs); [discriminate|].
    destruct (change_loop_greedy fuel (change_due m) Hc Hfuel) as (out & Eloop & _).
    rewrite init_coin_values_eq, <- Hcv, Hcm in Eloop.
    rewrite (count_change_update_eq hw fuel (set_event e0 m) 0 out s0 s) by assumption.
    change (0 =? 0) with true. cbv iota.
    rewrite (hide_noop _ s) by side.
    pass_result. split.
    + inv_simple. exists s. split; [reflexivity|]. rewrite Hcs. simpl. now repeat split.
    + edge CountChangeState WaitingState.
Qed.

(** A pass that ends, with whatever fuel, ends as [pass_total] says. *)
Lemma pass_spec (hw : bool) (fuel : nat) (e : string) (m m' : VendingMachine)
    (out : list Output) :
  Inv m -> main_loop_body hw fuel (Some e) m = Ok Continue m' out ->
  Inv m'
  /\ exists c c', active m = Some c /\ active m' = Some c' /\ next_ok c c' = true.
Proof.
  intros HI H.
  pose proof (main_loop_body_Continue _ _ _ _ _ _ H) as He.
  set (fuel' := Nat.max fuel (S (Z.to_nat (change_due m / 5)))).
  assert (Hfuel : change_due m / 5 < Z.of_nat fuel') by lia.
  destruct (pass_total hw fuel' e m HI He Hfuel) as (m'' & out'' & E & HI' & Hedge).
  rewrite (main_loop_body_mono hw fuel fuel' e m m' out H) in E by lia.
  injection E as <- <-. split; assumption.
Qed.

Lemma setup_eq (hw : bool) :
  main_setup hw new_machine =
    Ok tt setup_machine [LogEntering "waiting"; PrintWaiting].
Proof. vm_compute. reflexivity. Qed.

Lemma initial_stock_nonneg (k : string) (n : Z) :
  (list_to_map INITIAL_STOCK : gmap string Z) !! k = Some n -> 0 <= n.
Proof.
  intros H. apply elem_of_list_to_map_2 in H. unfold INITIAL_STOCK in H.
  repeat (apply elem_of_cons in H as [H|H]; [injection H as -> ->; lia|]).
  now apply elem_of_nil in H.
Qed.

Lemma setup_Inv (hw : bool) (m : VendingMachine) (out : list Output) :
  main_setup hw new_machine = Ok tt m out -> Inv m.
Proof.
  rewrite setup_eq. intros [= <- <-]. unfold setup_machine. constructor; simpl.
  - intros c Hc. destruct c; [congruence| | | |];
      eexists; (split; [vm_compute; reflexivity|reflexivity]).
  - now left.
  - now split.
  - now split.
  - intros k [nm price] Hk. apply PRODUCTS_cases in Hk.
    destruct Hk as [[-> _]|[[-> _]|[[-> _]|[-> _]]]];
      eexists; vm_compute; reflexivity.
  - apply initial_stock_nonneg.
  - reflexivity.
  - eexists. split; [reflexivity|]. simpl. repeat split. discriminate.
Qed.

Lemma button_Inv (m m' : VendingMachine) (out : list Output) :
  Inv m -> wrapped_button_action m = Ok tt m' out -> Inv m'.
Proof.
  intros HI [= <- <-]. destruct HI. constructor; simpl; try assumption.
  now right.
Qed.

(** Every machine the program can be in satisfies the invariant. *)
Lemma reachable_Inv (hw : bool) (m : VendingMachine) : reachable hw m -> Inv m.
Proof.
  induction 1 as [m out H|m m' fuel e out _ IH H|m m' out _ _ IH H].
  - exact (setup_Inv hw m out H).
  - exact (proj1 (pass_spec hw fuel e m m' out IH H)).
  - exact (button_Inv m m' out IH H).
Qed.

(** ** Runs of the loop *)


Lemma main_loop_reachable (hw : bool) (fuel : nat) (es : list string)
    (m m' : VendingMachine) (out : list Output) :
  reachable hw m -> main_loop hw fuel es m = Ok tt m' out -> reachable hw m'.
Proof.
  revert m out; induction es as [|e es IH]; intros m out Hr H.
  - injection H as <- <-. exact Hr.
  - cbn [main_loop] in H. unfold bind at 1 in H.
    destruct (main_loop_body hw fuel (Some e) m) as [[|] m1 o1| |] eqn:E;
      [| |discriminate..].
    + destruct (main_loop hw fuel es m1) as [[] m2 o2| |] eqn:E2; [|discriminate..].
      injection H as <- <-. eapply IH; [|exact E2].
      eapply reach_pass; eassumption.
    + injection H as <- <-. now rewrite (main_loop_body_Break _ _ _ _ _ _ E).
Qed.

Lemma main_reachable (hw : bool) (fuel : nat) (es : list string)
    (m : VendingMachine) (out : list Output) :
  main hw fuel es = Ok tt m out -> reachable hw m.
Proof.
  unfold main, bind, emit. rewrite setup_eq. intros H.
  destruct (main_loop hw fuel es setup_machine) as [[] m2 o2| |] eqn:E;
    [|discriminate..].
  injection H as <- <-.
  eapply main_loop_reachable; [|exact E].
  eapply reach_setup. apply setup_eq.
Qed.

(** In the executions of the program the change due in [count_change] is a
    positive multiple of 5, and the pass that follows ends in [waiting]. *)
Lemma reachable_count_change_returns (hw : bool) (fuel : nat) (e : string)
    (m : VendingMachine) :
  reachable hw m -> active m = Some CountChangeState ->
  String.eqb e "Exit" = false -> change_due m / 5 < Z.of_nat fuel ->
  exists m' out,
    main_loop_body hw fuel (Some e) m = Ok Continue m' out
    /\ active m' = Some WaitingState /\ change_due m' = 0.
Proof.
  intros Hr Hact He Hf.
  destruct (pass_total hw fuel e m (reachable_Inv hw m Hr) He Hf)
    as (m' & out & E & HI' & c & c' & Hc & Hc' & Hedge).
  exists m', out. split; [exact E|].
  rewrite Hact in Hc. injection Hc as <-.
  destruct c'; try discriminate. split; [exact Hc'|].
  destruct HI' as [_ _ _ _ _ _ _ (s & Hs & Hph)].
  unfold active in Hc'. rewrite Hs in Hc'. injection Hc' as Hcls.
  rewrite Hcls in Hph. simpl in Hph. tauto.
Qed.

(** * The claims of the specification *)

(** ** The registry *)

(** C10. [add_state] never fails, whatever the registry holds: it returns,
    prints nothing, binds the name of the state to the object that was just
    passed in, replacing an earlier object of that name, and leaves every
    other name and every other attribute of the machine alone. *)
Theorem add_state_last_wins (m : VendingMachine) (st : StateObj) :
  exists m',
    add_state st m = Ok tt m' []
    /\ states m' !! name st = Some st
    /\ (forall n, n <> name st -> states m' !! n = states m !! n)
    /\ state m' = state m /\ amount m' = amount m
    /\ change_due m' = change_due m /\ stock m' = stock m.
Proof.
  eexists. split; [reflexivity|]. simpl. split; [apply lookup_insert_eq|].
  split; [|repeat split].
  intros n Hn. apply lookup_insert_ne. congruence.
Qed.

(** Two objects of one class: the second registration replaces the first,
    and [go_to_state] then activates the second. *)
Example add_state_twice :
  let first := {| cls := WaitingState; oid := 0 |} in
  let second := {| cls := WaitingState; oid := 7 |} in
  match (add_state first ;; add_state second ;; go_to_state false "waiting")
          new_machine with
  | Ok _ m _ => states m !! "waiting" = Some second /\ state m = Some second
  | _ => False
  end.
Proof. vm_compute. split; reflexivity. Qed.

(** ** Amounts and stock *)

(** C4. In every machine the program can be in, the balance, the change due
    and every stock count are at least zero. *)
Theorem reachable_nonnegative (hw : bool) (m : VendingMachine) :
  reachable hw m ->
  0 <= amount m /\ 0 <= change_due m
  /\ forall k n, stock m !! k = Some n -> 0 <= n.
Proof.
  intros Hr. destruct (reachable_Inv hw m Hr) as [_ _ [Ha _] [Hc _] _ Hst _ _].
  auto.
Qed.

Lemma reachable_nonnegative_witness :
  exists m out,
    main true 40 ["100"; "cap_0"; "tick"; "tock"; "5"; "res_0"] = Ok tt m out
    /\ 0 <= amount m /\ 0 <= change_due m
    /\ forall k n, stock m !! k = Some n -> 0 <= n.
Proof.
  eexists. eexists. split; [vm_compute; reflexivity|].
  apply (reachable_nonnegative true).
  eapply (main_reachable true 40 ["100"; "cap_0"; "tick"; "tock"; "5"; "res_0"]).
  vm_compute. reflexivity.
Defined.




(** ** The change phase *)

Lemma change_loop_negative (fuel : nat) (r : Z) :
  r < 0 -> (0 < fuel)%nat ->
  change_loop fuel init_coin_values r = Some (r, []).
Proof.
  intros Hr Hf. destruct fuel as [|fuel]; [lia|].
  rewrite init_coin_values_eq. unfold change_loop.
  rewrite !return_coins_below by lia. reflexivity.
Qed.

(** C6, as the specification states it, fails: with 3 cents due the update
    clears the change due and the machine stays in [count_change]. *)
Lemma change_of_3_stays :
  match change_of_3 false 10 with
  | Ok _ m _ => change_due m = 0 /\ active m = Some CountChangeState
  | _ => False
  end.
Proof. vm_compute. split; reflexivity. Qed.

(** C6, amended. One update of [count_change] sets the change due to zero
    whatever it was, and leaves the balance and the stock alone; it moves
    the machine to [waiting] exactly when the change due was a non-negative
    multiple of 5, and otherwise leaves it in [count_change]. *)
Theorem count_change_update_spec (hw : bool) (fuel : nat) (m : VendingMachine)
    (s0 w : StateObj) :
  state m = Some s0 -> cls s0 = CountChangeState ->
  coin_values m = [200; 100; 25; 10; 5] ->
  states m !! "waiting" = Some w -> cls w = WaitingState ->
  (0 < fuel)%nat -> change_due m / 5 < Z.of_nat fuel ->
  exists m' out,
    update hw fuel m = Ok tt m' out
    /\ change_due m' = 0 /\ amount m' = amount m /\ stock m' = stock m
    /\ state m' =
         if (0 <=? change_due m) && (change_due m mod 5 =? 0)
         then Some w else Some s0.
Proof.
  intros Hs Hc Hcv Hw Hcw Hf0 Hf.
  rewrite (update_eq hw fuel m s0 Hs), Hc. simpl State_update.
  destruct (Z.leb_spec 0 (change_due m)) as [Hpos|Hneg].
  - destruct (change_loop_greedy fuel (change_due m) Hpos Hf) as (out & E & _).
    rewrite init_coin_values_eq, <- Hcv in E.
    rewrite (count_change_update_eq hw fuel m _ out s0 w E Hs Hw Hcw).
    simpl andb. destruct (change_due m mod 5 =? 0);
      eexists; eexists; (split; [reflexivity|]); simpl; auto.
  - pose proof (change_loop_negative fuel (change_due m) Hneg Hf0) as E.
    rewrite init_coin_values_eq, <- Hcv in E.
    rewrite (count_change_update_eq hw fuel m _ [] s0 w E Hs Hw Hcw).
    destruct (Z.eqb_spec (change_due m) 0); [lia|].
    eexists; eexists; (split; [reflexivity|]); simpl; auto.
Qed.

Lemma count_change_update_spec_witness :
  exists m' out',
    update false 40 change_of_175_machine = Ok tt m' out'
    /\ change_due m' = 0
    /\ state m' = Some {| cls := WaitingState; oid := 0 |}.
Proof.
  destruct (count_change_update_spec false 40 change_of_175_machine
              {| cls := CountChangeState; oid := 3 |}
              {| cls := WaitingState; oid := 0 |})
    as (m' & out' & E & Hcd & _ & _ & Hs);
    [ reflexivity | reflexivity | reflexivity | vm_compute; reflexivity
    | reflexivity | lia | vm_compute; reflexivity | ].
  exists m', out'. split; [exact E|]. split; [exact Hcd|]. exact Hs.
Defined.

(** ** Selections that fail, events that mean nothing *)

(** C7. In [add_coins], a selection of a known product that is out of stock,
    or that is in stock but costs more than the balance, prints one message
    and nothing else, and leaves the active state, the balance, the change
    due and the whole stock table as they were. *)
Theorem failed_selection_frame (hw : bool) (fuel : nat) (m : VendingMachine)
    (s : StateObj) (nm : string) (price n : Z) :
  state m = Some s -> cls s = AddCoinsState ->
  has_underscore (event m) = true ->
  dict_get (rsplit_head (event m)) PRODUCTS = Some (nm, price) ->
  stock m !! rsplit_head (event m) = Some n ->
  n <= 0 \/ (0 < n /\ amount m < price) ->
  exists m',
    update hw fuel m =
      Ok tt m' [if n <=? 0 then PrintOutOfStock (rsplit_head (event m))
                else PrintInsufficient price]
    /\ state m' = Some s /\ amount m' = amount m
    /\ change_due m' = change_due m /\ stock m' = stock m.
Proof.
  intros Hs Hc Hu Hp Hn Hfail.
  rewrite (update_eq hw fuel m s Hs), Hc. simpl State_update.
  exists (set_event "" m). split; [|simpl; auto].
  destruct Hfail as [Hle|[Hpos Hlt]].
  - rewrite (add_coins_update_out_of_stock hw m nm price n) by assumption.
    destruct (Z.leb_spec n 0); [reflexivity|lia].
  - rewrite (add_coins_update_insufficient hw m nm price n) by assumption.
    destruct (Z.leb_spec n 0); [lia|reflexivity].
Qed.

Lemma failed_selection_frame_witness :
  exists m',
    update false 0 short_of_funds_machine = Ok tt m' [PrintInsufficient 150]
    /\ state m' = state short_of_funds_machine /\ amount m' = 100.
Proof.
  destruct (failed_selection_frame false 0 short_of_funds_machine
              {| cls := AddCoinsState; oid := 1 |} "2N3904 BJT" 150 2)
    as (m' & E & Hs & Ha & _);
    [ reflexivity | reflexivity | reflexivity | reflexivity
    | vm_compute; reflexivity | right; split; [lia | vm_compute; reflexivity] | ].
  exists m'. split; [exact E|]. split; [exact Hs|exact Ha].
Defined.

(** C8, as the specification states it, fails twice over: an event that
    means nothing is not reported (the run that receives it prints what the
    run without it prints), and in [deliver_product] any event, this one
    too, takes the machine on to the next state. *)
Lemma unknown_event_not_reported :
  match main false 0 [], main false 0 ["foo"],
        main false 0 ["100"; "cap_0"], main false 0 ["100"; "cap_0"; "foo"] with
  | Ok _ _ o0, Ok _ _ o1, Ok _ m2 _, Ok _ m3 _ =>
      o1 = o0
      /\ active m2 = Some DeliverProductState
      /\ active m3 = Some CountChangeState
  | _, _, _, _ => False
  end.
Proof. vm_compute. repeat split. Qed.

(** C8, amended. In [waiting] and in [add_coins], an event that is no coin
    key, not ['RETURN'] and no selection of a known product raises nothing,
    prints nothing, and leaves the active state, the balance, the change due
    and the stock as they were. *)
Theorem unknown_event_ignored (hw : bool) (fuel : nat) (m : VendingMachine)
    (s : StateObj) :
  state m = Some s -> cls s = WaitingState \/ cls s = AddCoinsState ->
  dict_mem (event m) COINS = false -> event m <> "RETURN" ->
  (has_underscore (event m) = true ->
   dict_get (rsplit_head (event m)) PRODUCTS = None) ->
  exists m',
    update hw fuel m = Ok tt m' []
    /\ state m' = Some s /\ amount m' = amount m
    /\ change_due m' = change_due m /\ stock m' = stock m.
Proof.
  intros Hs Hc Hcoin Hret Hsel.
  rewrite (update_eq hw fuel m s Hs).
  destruct Hc as [Hc|Hc]; rewrite Hc; simpl State_update.
  - rewrite waiting_update_other by assumption.
    exists m. auto.
  - rewrite add_coins_update_other by assumption.
    exists (set_event "" m). simpl. auto.
Qed.

Lemma unknown_event_ignored_witness :
  exists m',
    update false 0 (set_event "foo_1" short_of_funds_machine) = Ok tt m' []
    /\ amount m' = 100.
Proof.
  destruct (unknown_event_ignored false 0 (set_event "foo_1" short_of_funds_machine)
              {| cls := AddCoinsState; oid := 1 |})
    as (m' & E & _ & Ha & _);
    [ reflexivity | right; reflexivity | reflexivity | discriminate
    | reflexivity | ].
  exists m'. split; [exact E|exact Ha].
Defined.

(** ** The stock recheck at entry to [deliver_product] *)

(** Entering [deliver_product] when the recheck fails. *)
Lemma failed_entry (hw : bool) (m : VendingMachine) (s0 d : StateObj) :
  state m = Some s0 ->
  states m !! "deliver_product" = Some d -> cls d = DeliverProductState ->
  default 0 (stock m !! event m) <= 0 ->
  exists m1,
    go_to_state hw "deliver_product" m =
      Ok tt m1 [LogExiting (name s0); LogEntering "deliver_product";
                PrintDeliverError (event m)]
    /\ state m1 = Some d /\ states m1 = states m
    /\ amount m1 = amount m /\ change_due m1 = change_due m
    /\ stock m1 = stock m.
Proof.
  intros Hs Hl Hc Hz.
  rewrite (go_to_state_eq hw _ m s0 d Hs Hl), Hc. simpl on_entry.
  destruct (deliver_on_entry_failure hw (set_state (Some d) m) Hz)
    as (m1 & E & H1 & H2 & _ & H4 & H5 & H6 & _).
  rewrite E. exists m1. unfold name. rewrite Hc. simpl.
  repeat split; assumption.
Qed.

(** C3, as the specification states it, fails: entered with 100 cents held
    and the product sold out, the machine leaves [deliver_product] with the
    100 cents still in the balance and the change due still zero. *)
Lemma failed_dispense_keeps_funds_in_balance :
  match (go_to_state false "deliver_product" ;; update false 0)
          sold_out_machine with
  | Ok _ m _ =>
      amount sold_out_machine = 100
      /\ stock sold_out_machine !! "res" = Some 0
      /\ active m = Some WaitingState
      /\ amount m = 100 /\ change_due m = 0
  | _ => False
  end.
Proof. vm_compute. repeat split. Qed.

(** C3, amended. When the recheck at entry to [deliver_product] finds no
    stock, the machine leaves the state with the balance and the change due
    exactly as they were at entry: the balance is neither moved to the
    change due nor cleared.  It goes to [count_change] if a change due was
    already pending and to [waiting] otherwise. *)
Theorem failed_dispense_not_routed (hw : bool) (fuel : nat) (m : VendingMachine)
    (s0 : StateObj) :
  state m = Some s0 -> registry_ok m ->
  default 0 (stock m !! event m) <= 0 ->
  exists m2 out,
    (go_to_state hw "deliver_product" ;; update hw fuel) m = Ok tt m2 out
    /\ amount m2 = amount m /\ change_due m2 = change_due m
    /\ active m2 =
         Some (if 0 <? change_due m then CountChangeState else WaitingState).
Proof.
  intros Hs Hreg Hz.
  destruct (registered m DeliverProductState Hreg) as (d & Hd & Hcd); [discriminate|]. simpl in Hd.
  destruct (failed_entry hw m s0 d Hs Hd Hcd Hz)
    as (m1 & E & Hs1 & Hr1 & Ha1 & Hc1 & _).
  unfold bind. rewrite E, (update_eq hw fuel m1 d Hs1), Hcd. simpl State_update.
  destruct (Z.ltb_spec 0 (change_due m)) as [Hpos|Hnon].
  - destruct (registered m CountChangeState Hreg) as (c & Hc & Hcc); [discriminate|]. simpl in Hc.
    rewrite (deliver_update_change hw m1 d c) by (first [lia | congruence]).
    eexists. eexists. split; [reflexivity|]. unfold active. simpl.
    rewrite Hcc. auto.
  - destruct (registered m WaitingState Hreg) as (w & Hw & Hcw); [discriminate|]. simpl in Hw.
    rewrite (deliver_update_waiting hw m1 d w) by (first [lia | congruence]).
    eexists. eexists. split; [reflexivity|]. unfold active. simpl.
    rewrite Hcw. auto.
Qed.

Lemma sold_out_registry : registry_ok sold_out_machine.
Proof.
  intros c Hc. destruct c; [congruence| | | |];
    eexists; (split; [vm_compute; reflexivity|reflexivity]).
Qed.

Lemma failed_dispense_not_routed_witness :
  exists m2 out,
    (go_to_state true "deliver_product" ;; update true 0) sold_out_machine
      = Ok tt m2 out
    /\ amount m2 = 100 /\ change_due m2 = 0.
Proof.
  destruct (failed_dispense_not_routed true 0 sold_out_machine
              {| cls := AddCoinsState; oid := 1 |})
    as (m2 & out & E & Ha & Hc & _);
    [ reflexivity | exact sold_out_registry | vm_compute; discriminate | ].
  exists m2, out. split; [exact E|]. split; [exact Ha|exact Hc].
Defined.





(** ** A purchase with exact funds *)

Lemma has_underscore_not_Exit (e : string) :
  has_underscore e = true -> String.eqb e "Exit" = false.
Proof.
  intros H. destruct (String.eqb_spec e "Exit") as [->|_]; [discriminate|reflexivity].
Qed.





(** The selection, with the funds at hand. *)
Lemma pass_select (hw : bool) (fuel : nat) (pk i nm : string) (price n : Z)
    (m : VendingMachine) (s d : StateObj) :
  state m = Some s -> cls s = AddCoinsState -> event m = "" ->
  has_underscore i = false ->
  dict_get pk PRODUCTS = Some (nm, price) ->
  stock m !! pk = Some n -> 0 < n -> price <= amount m ->
  states m !! "deliver_product" = Some d -> cls d = DeliverProductState ->
  main_loop_body hw fuel (Some (button_key pk i)) m =
    Ok Continue (sold (set_event (button_key pk i) m) d pk price n)
       (LogExiting (name s) :: LogEntering "deliver_product"
        :: dispense_output hw nm (n - 1)).
Proof.
  intros Hs Hc He Hi Hp Hn Hpos Hge Hl Hcd.
  pose proof (has_underscore_button_key pk i) as Hu.
  pose proof (rsplit_head_button_key pk i Hi) as Hr.
  rewrite main_loop_body_eq by exact (has_underscore_not_Exit _ Hu).
  rewrite He. change (String.eqb "" "RETURN") with false. cbv iota.
  rewrite (update_eq hw fuel (set_event (button_key pk i) m) s Hs), Hc.
  simpl State_update.
  rewrite (add_coins_update_sold hw (set_event (button_key pk i) m) nm price n s d);
    simpl event; rewrite ?Hr; try assumption.
  rewrite (hide_in_deliver _ d) by (simpl; first [reflexivity | assumption]).
  rewrite app_nil_r. reflexivity.
Qed.




(** * Further properties of the program *)

(** ** Passes of the loop in the executions of the program *)

Lemma setup_reachable (hw : bool) : reachable hw setup_machine.
Proof. exact (reach_setup hw setup_machine _ (setup_eq hw)). Qed.



(** X2. In the executions of the program every pass follows the transition
    graph: from [waiting] to [waiting] or [add_coins]; from [add_coins] to
    itself, to [count_change] or to [deliver_product]; from
    [deliver_product] to [count_change] or [waiting]; from [count_change] to
    [waiting]. *)
Theorem pass_follows_graph (hw : bool) (fuel : nat) (e : string)
    (m m' : VendingMachine) (out : list Output) :
  reachable hw m ->
  main_loop_body hw fuel (Some e) m = Ok Continue m' out ->
  exists c c', active m = Some c /\ active m' = Some c' /\ next_ok c c' = true.
Proof.
  intros Hr H.
  exact (proj2 (pass_spec hw fuel e m m' out (reachable_Inv hw m Hr) H)).
Qed.

Lemma pass_follows_graph_witness :
  exists m' out,
    main_loop_body false 0 (Some "100") setup_machine = Ok Continue m' out
    /\ exists c c',
         active setup_machine = Some c /\ active m' = Some c'
         /\ next_ok c c' = true.
Proof.
  eexists. eexists. split; [vm_compute; reflexivity|].
  eapply (pass_follows_graph false 0 "100" setup_machine);
    [ apply setup_reachable | vm_compute; reflexivity ].
Defined.

(** X3. A ['RETURN'] that the hardware callback has stored takes the place
    of the event of the GUI: the pass does what it does on ['RETURN'],
    whatever the window delivered, a coin included. *)
Theorem pending_return_overrides_event (hw : bool) (fuel : nat) (e : string)
    (m : VendingMachine) :
  event m = "RETURN" -> String.eqb e "Exit" = false ->
  main_loop_body hw fuel (Some e) m = main_loop_body hw fuel (Some "RETURN") m.
Proof.
  intros Hev He. rewrite !main_loop_body_eq by (first [exact He | reflexivity]).
  rewrite Hev. reflexivity.
Qed.

Lemma pending_return_overrides_event_witness :
  main_loop_body true 0 (Some "200") button_pressed_machine
  = main_loop_body true 0 (Some "RETURN") button_pressed_machine
  /\ main_loop_body true 0 (Some "200") button_pressed_machine
     = Ok Continue setup_machine [].
Proof.
  split.
  - apply (pending_return_overrides_event true 0 "200" button_pressed_machine);
      reflexivity.
  - vm_compute. reflexivity.
Defined.





(** ** Missing keys *)

(** X6. [go_to_state] with a name that is not registered raises [KeyError]
    with that name, from any machine, with or without an active state. *)
Theorem go_to_state_unregistered (hw : bool) (n : string) (m : VendingMachine) :
  states m !! n = None -> go_to_state hw n m = Raise (KeyError n).
Proof.
  intros Hn. unfold go_to_state, bind, get. simpl.
  destruct (state m); simpl; rewrite Hn; reflexivity.
Qed.

Lemma go_to_state_unregistered_witness :
  go_to_state false "waiting" new_machine = Raise (KeyError "waiting").
Proof.
  apply (go_to_state_unregistered false "waiting" new_machine). reflexivity.
Defined.

(** X7. In [add_coins] the stock is read with [machine.stock[product_key]]:
    the selection of a known product that has no entry in the stock table
    raises [KeyError] with the product key. *)
Theorem selection_without_stock_entry (hw : bool) (fuel : nat)
    (m : VendingMachine) (s : StateObj) (nm : string) (price : Z) :
  state m = Some s -> cls s = AddCoinsState ->
  has_underscore (event m) = true ->
  dict_get (rsplit_head (event m)) PRODUCTS = Some (nm, price) ->
  stock m !! rsplit_head (event m) = None ->
  update hw fuel m = Raise (KeyError (rsplit_head (event m))).
Proof.
  intros Hs Hc Hu Hp Hn.
  rewrite (update_eq hw fuel m s Hs), Hc. simpl State_update.
  unfold AddCoinsState_update, bind, get. simpl.
  rewrite (has_underscore_not_RETURN _ Hu), (has_underscore_not_coin _ Hu), Hu, Hp, Hn.
  reflexivity.
Qed.

Lemma selection_without_stock_entry_witness :
  update false 0 (set_stock ∅ short_of_funds_machine)
  = Raise (KeyError "transistor").
Proof.
  apply (selection_without_stock_entry false 0
           (set_stock ∅ short_of_funds_machine)
           {| cls := AddCoinsState; oid := 1 |} "2N3904 BJT" 150);
    reflexivity.
Defined.

(** ** The effect of a pass on the funds and on the stock *)

Lemma hide_frame (m1 m2 : VendingMachine) (o2 : list Output) :
  hide_sold_button m1 = Ok tt m2 o2 ->
  amount m2 = amount m1 /\ change_due m2 = change_due m1
  /\ stock m2 = stock m1 /\ state m2 = state m1 /\ coins_emitted o2 = [].
Proof.
  unfold hide_sold_button, bind, get. simpl.
  destruct (state m1) as [s|] eqn:Es; [|discriminate].
  destruct (negb _ && _); [|intros [= <- <-]; auto].
  destruct (selected_button_key m1); [|discriminate].
  simpl. intros [= <- <-]. simpl. auto.
Qed.

Lemma main_loop_body_inv (hw : bool) (fuel : nat) (e : string)
    (m m' : VendingMachine) (out : list Output) :
  main_loop_body hw fuel (Some e) m = Ok Continue m' out ->
  exists m1 o1 m2 o2,
    update hw fuel (set_event (effective_event m e) m) = Ok tt m1 o1
    /\ hide_sold_button m1 = Ok tt m2 o2
    /\ m' = set_event "" m2 /\ out = o1 ++ o2.
Proof.
  intros H. pose proof (main_loop_body_Continue _ _ _ _ _ _ H) as He.
  rewrite main_loop_body_eq in H by exact He. unfold effective_event.
  destruct (update hw fuel _) as [[] m1 o1| |]; [|discriminate..].
  destruct (hide_sold_button m1) as [[] m2 o2| |] eqn:Eh; [|discriminate..].
  injection H as <- <-. exists m1, o1, m2, o2. auto.
Qed.

(** Whatever fuel let the change loop end, it ended as the greedy
    decomposition says. *)
Lemma change_loop_result (fuel : nat) (cd r : Z) (out : list Output) :
  0 <= cd -> change_loop fuel init_coin_values cd = Some (r, out) ->
  r = cd mod 5 /\ coins_emitted out = greedy_spec cd.
Proof.
  intros Hcd H.
  set (fuel' := Nat.max fuel (S (Z.to_nat (cd / 5)))).
  assert (Hf : cd / 5 < Z.of_nat fuel') by lia.
  destruct (change_loop_greedy fuel' cd Hcd Hf) as (out' & E & C).
  rewrite (change_loop_mono fuel fuel' _ _ _ H) in E by lia.
  injection E as -> ->. auto.
Qed.

#[local] Ltac effect_fields :=
  simpl; rewrite ?app_nil_r;
  first [ reflexivity | assumption | lia | congruence
        | left; congruence | right; congruence | eassumption
        | intros [?|?]; congruence ].

Lemma update_effect (hw : bool) (fuel : nat) (e0 : string)
    (m m1 : VendingMachine) (o1 : list Output) :
  Inv m -> update hw fuel (set_event e0 m) = Ok tt m1 o1 ->
  pass_effect m e0 m1 o1.
Proof.
  intros HI H.
  destruct HI as [Hreg Hev [Ha Ham] [Hc Hcm] Hprod Hst Hcv (s0 & Hs0 & Hph)].
  rewrite (update_eq hw fuel (set_event e0 m) s0 Hs0) in H.
  assert (Hact : active m = Some (cls s0)) by (unfold active; now rewrite Hs0).
  destruct (cls s0) eqn:Hcls; simpl State_update in H; simpl in Hph;
    [contradiction| | | |].
  - (* waiting *)
    destruct (dict_get e0 COINS) as [[l v]|] eqn:Ecoin.
    + destruct (registered m AddCoinsState Hreg) as (s & Hl & Hcs); [discriminate|].
      rewrite (waiting_update_coin hw (set_event e0 m) l v s0 s) in H by assumption.
      injection H as <- <-.
      apply (effect_coin m e0 _ _ l v); effect_fields.
    + assert (Hmem : dict_mem e0 COINS = false) by (unfold dict_mem; now rewrite Ecoin).
      destruct (String.eqb_spec e0 "RETURN") as [Er|Er].
      * rewrite waiting_update_return in H by exact Er. injection H as <- <-.
        apply effect_none; effect_fields.
      * rewrite waiting_update_other in H by assumption. injection H as <- <-.
        apply effect_none; effect_fields.
  - (* add_coins *)
    destruct (String.eqb_spec e0 "RETURN") as [Er|Er].
    { destruct (registered m CountChangeState Hreg) as (s & Hl & Hcs); [discriminate|].
      rewrite (add_coins_update_return hw (set_event e0 m) s0 s) in H by assumption.
      injection H as <- <-. apply effect_refund; effect_fields. }
    destruct (dict_get e0 COINS) as [[l v]|] eqn:Ecoin.
    { rewrite (add_coins_update_coin hw (set_event e0 m) l v) in H by assumption.
      injection H as <- <-. apply (effect_coin m e0 _ _ l v); effect_fields. }
    assert (Hmem : dict_mem e0 COINS = false) by (unfold dict_mem; now rewrite Ecoin).
    destruct (has_underscore e0) eqn:Hu;
      [destruct (dict_get (rsplit_head e0) PRODUCTS) as [[nm price]|] eqn:Ep|].
    + destruct (Hprod _ _ Ep) as [n Hn].
      destruct (Z_le_gt_dec n 0) as [Hle|Hgt];
        [|destruct (Z_lt_le_dec (amount m) price) as [Hlt|Hge]].
      * rewrite (add_coins_update_out_of_stock hw (set_event e0 m) nm price n) in H
          by assumption.
        injection H as <- <-. apply effect_none; effect_fields.
      * rewrite (add_coins_update_insufficient hw (set_event e0 m) nm price n) in H
          by (first [assumption | lia]).
        injection H as <- <-. apply effect_none; effect_fields.
      * destruct (registered m DeliverProductState Hreg) as (s & Hl & Hcs);
          [discriminate|].
        rewrite (add_coins_update_sold hw (set_event e0 m) nm price n s0 s) in H
          by (first [assumption | lia]).
        injection H as <- <-.
        apply (effect_sale m e0 _ _ nm price n); try effect_fields.
        destruct hw; reflexivity.
    + rewrite add_coins_update_other in H
        by (simpl; first [assumption | now intros _]).
      injection H as <- <-. apply effect_none; effect_fields.
    + rewrite add_coins_update_other in H
        by (simpl; first [assumption | congruence]).
      injection H as <- <-. apply effect_none; effect_fields.
  - (* deliver_product *)
    destruct (Z_lt_le_dec 0 (change_due m)) as [Hpos|Hzero].
    + destruct (registered m CountChangeState Hreg) as (s & Hl & Hcs); [discriminate|].
      rewrite (deliver_update_change hw (set_event e0 m) s0 s) in H by assumption.
      injection H as <- <-. apply effect_none; effect_fields.
    + destruct (registered m WaitingState Hreg) as (s & Hl & Hcs); [discriminate|].
      rewrite (deliver_update_waiting hw (set_event e0 m) s0 s) in H by assumption.
      injection H as <- <-. apply effect_none; effect_fields.
  - (* count_change *)
    destruct (registered m WaitingState Hreg) as (s & Hl & Hcs); [discriminate|].
    destruct (change_loop fuel (coin_values m) (change_due m)) as [[r out]|] eqn:E.
    + pose proof E as E'. rewrite Hcv, <- init_coin_values_eq in E'.
      destruct (change_loop_result fuel _ r out Hc E') as [Hr Hout].
      rewrite (count_change_update_eq hw fuel (set_event e0 m) r out s0 s)
        in H by assumption.
      rewrite Hr, Hcm in H. change (0 =? 0) with true in H. cbv iota in H.
      injection H as <- <-.
      apply effect_change; try effect_fields.
      rewrite coins_emitted_app. simpl. rewrite app_nil_r, Hout.
      rewrite greedy_spec_total by exact Hc. lia.
    + unfold CountChangeState_update, bind, get in H. simpl in H.
      rewrite E in H. discriminate.
Qed.

(** Every pass in the executions of the program does one of the five
    things. *)
Lemma pass_effect_reachable (hw : bool) (fuel : nat) (e : string)
    (m m' : VendingMachine) (out : list Output) :
  reachable hw m ->
  main_loop_body hw fuel (Some e) m = Ok Continue m' out ->
  pass_effect m (effective_event m e) m' out.
Proof.
  intros Hr H.
  destruct (main_loop_body_inv hw fuel e m m' out H)
    as (m1 & o1 & m2 & o2 & Eu & Eh & -> & ->).
  destruct (hide_frame m1 m2 o2 Eh) as (Ha & Hc & Hs & _ & Ho).
  pose proof (update_effect hw fuel _ m m1 o1 (reachable_Inv hw m Hr) Eu) as Heff.
  destruct Heff as [l v ? ? ? ? ? ?| | nm price n| |].
  - apply (effect_coin m _ _ _ l v); simpl; rewrite ?coins_emitted_app, ?Ho, ?app_nil_r;
      first [assumption | congruence].
  - apply effect_refund; simpl; rewrite ?coins_emitted_app, ?Ho, ?app_nil_r;
      first [assumption | congruence].
  - apply (effect_sale m _ _ _ nm price n); simpl;
      rewrite ?coins_emitted_app, ?Ho, ?app_nil_r;
      first [assumption | congruence].
  - apply effect_change; simpl; rewrite ?coins_emitted_app, ?Ho, ?app_nil_r;
      first [assumption | congruence].
  - apply effect_none; simpl; rewrite ?coins_emitted_app, ?Ho, ?app_nil_r;
      first [assumption | congruence].
Qed.

(** ** The ledger *)

(** What the invariant says about the funds in [waiting] and [add_coins]. *)
Lemma idle_and_funded (hw : bool) (m : VendingMachine) :
  reachable hw m ->
  (active m = Some WaitingState -> amount m = 0 /\ change_due m = 0)
  /\ (active m = Some AddCoinsState -> 0 < amount m /\ change_due m = 0).
Proof.
  intros Hr.
  destruct (reachable_Inv hw m Hr) as [_ _ _ _ _ _ _ (s & Hs & Hph)].
  unfold active. rewrite Hs. simpl.
  split; intros [= Hc]; rewrite Hc in Hph; simpl in Hph; tauto.
Qed.

(** A pass leaves the stock alone or lowers one positive entry by one. *)
Lemma stock_step (hw : bool) (fuel : nat) (e : string)
    (m m' : VendingMachine) (out : list Output) :
  reachable hw m ->
  main_loop_body hw fuel (Some e) m = Ok Continue m' out ->
  stock m' = stock m
  \/ exists pk n, stock m !! pk = Some n /\ 0 < n
                  /\ stock m' = <[pk := n - 1]> (stock m).
Proof.
  intros Hr H.
  destruct (pass_effect_reachable hw fuel e m m' out Hr H)
    as [l v _ _ _ _ Hs _|_ _ _ _ Hs _
       |nm price n _ _ _ Hn Hpos _ _ _ Hs _|_ _ _ Hs _|_ _ _ Hs _];
    try (left; exact Hs).
  right. eauto.
Qed.

Lemma credited_nonneg (e : string) : 0 <= credited e.
Proof.
  unfold credited. destruct (dict_get e COINS) as [[l v]|] eqn:E; [|lia].
  destruct (COINS_value _ _ _ E). lia.
Qed.

(** X8. Nothing leaves the stock unpaid.  In the executions of the program a
    pass either leaves the stock table as it was, or it is a selection made
    in [add_coins] of a product that was in stock and that the balance
    covered: then exactly that entry is one lower, the balance is zero and
    the change due is the balance less the price. *)
Theorem no_sale_without_payment (hw : bool) (fuel : nat) (e : string)
    (m m' : VendingMachine) (out : list Output) :
  reachable hw m ->
  main_loop_body hw fuel (Some e) m = Ok Continue m' out ->
  stock m' = stock m
  \/ exists product_name price n,
       active m = Some AddCoinsState
       /\ dict_get (rsplit_head (effective_event m e)) PRODUCTS
          = Some (product_name, price)
       /\ stock m !! rsplit_head (effective_event m e) = Some n
       /\ 0 < n /\ price <= amount m
       /\ stock m' = <[rsplit_head (effective_event m e) := n - 1]> (stock m)
       /\ amount m' = 0 /\ change_due m' = amount m - price.
Proof.
  intros Hr H.
  destruct (pass_effect_reachable hw fuel e m m' out Hr H)
    as [l v _ _ _ _ Hs _|_ _ _ _ Hs _
       |nm price n Hact _ Hp Hn Hpos Hge Ha Hc Hs _|_ _ _ Hs _|_ _ _ Hs _];
    try (left; exact Hs).
  right. exists nm, price, n. auto 10.
Qed.

Lemma no_sale_without_payment_witness :
  stock cap_sold_machine = stock funded_machine
  \/ exists product_name price n,
       active funded_machine = Some AddCoinsState
       /\ dict_get (rsplit_head (effective_event funded_machine "cap_2")) PRODUCTS
          = Some (product_name, price)
       /\ stock funded_machine !! rsplit_head (effective_event funded_machine "cap_2")
          = Some n
       /\ 0 < n /\ price <= amount funded_machine
       /\ stock cap_sold_machine
          = <[rsplit_head (effective_event funded_machine "cap_2") := n - 1]>
              (stock funded_machine)
       /\ amount cap_sold_machine = 0
       /\ change_due cap_sold_machine = amount funded_machine - price.
Proof.
  eapply (no_sale_without_payment false 0 "cap_2" funded_machine cap_sold_machine).
  - eapply (main_reachable false 0 ["100"]). vm_compute. reflexivity.
  - vm_compute. reflexivity.
Defined.

(** X9. The machine never holds or hands back more than it was given.  In
    the executions of the program, the balance and the change due after a
    pass, together with the coins the pass hands back, are at most the
    balance and the change due before it plus the coin the pass may have
    taken; when the pass sold nothing, they are at least the balance and the
    change due before it. *)
Theorem pass_conserves_funds (hw : bool) (fuel : nat) (e : string)
    (m m' : VendingMachine) (out : list Output) :
  reachable hw m ->
  main_loop_body hw fuel (Some e) m = Ok Continue m' out ->
  amount m' + change_due m' + total (coins_emitted out)
    <= amount m + change_due m + credited (effective_event m e)
  /\ (stock m' = stock m ->
      amount m + change_due m
        <= amount m' + change_due m' + total (coins_emitted out)).
Proof.
  intros Hr H.
  pose proof (credited_nonneg (effective_event m e)) as Hcr.
  destruct (idle_and_funded hw m Hr) as (Hw & Hadd).
  destruct (pass_effect_reachable hw fuel e m m' out Hr H)
    as [l v _ Hcoin Ha Hc _ Ho|Hact _ Ha Hc _ Ho
       |nm price n Hact _ Hp Hn Hpos Hge Ha Hc Hs Ho|_ Ha Hc _ Ho|_ Ha Hc _ Ho].
  - destruct (COINS_value _ _ _ Hcoin) as [Hv _].
    unfold credited. rewrite Hcoin, Ho. unfold total; simpl. split; [lia|intros _; lia].
  - rewrite Ho. unfold total; simpl. specialize (Hadd Hact). split; [lia|intros _; lia].
  - rewrite Ho. unfold total; simpl. specialize (Hadd Hact).
    destruct (PRODUCTS_price _ _ _ Hp) as [Hprice _].
    split; [lia|]. intros Hsame. exfalso.
    rewrite Hsame in Hs. apply (f_equal (fun t => t !! rsplit_head (effective_event m e))) in Hs.
    rewrite lookup_insert_eq, Hn in Hs. injection Hs. lia.
  - split; [lia|intros _; lia].
  - rewrite Ho. unfold total; simpl. split; [lia|intros _; lia].
Qed.

Lemma pass_conserves_funds_witness :
  exists m out m' out',
    main false 40 ["200"; "cap_0"; "tick"] = Ok tt m out
    /\ main_loop_body false 40 (Some "tick") m = Ok Continue m' out'
    /\ change_due m = 150 /\ total (coins_emitted out') = 150
    /\ amount m' + change_due m' + total (coins_emitted out')
       <= amount m + change_due m + credited (effective_event m "tick").
Proof.
  eexists. eexists. eexists. eexists.
  split; [vm_compute; reflexivity|].
  split; [vm_compute; reflexivity|].
  split; [reflexivity|]. split; [reflexivity|].
  eapply (pass_conserves_funds false 40 "tick").
  - eapply (main_reachable false 40 ["200"; "cap_0"; "tick"]).
    vm_compute. reflexivity.
  - vm_compute. reflexivity.
Defined.

Lemma initial_stock_lookup (k : string) (n : Z) :
  (list_to_map INITIAL_STOCK : gmap string Z) !! k = Some n ->
  dict_get k INITIAL_STOCK = Some n.
Proof.
  intros H. apply elem_of_list_to_map_2 in H. unfold INITIAL_STOCK in H.
  repeat (apply elem_of_cons in H as [H|H]; [injection H as -> ->; reflexivity|]).
  now apply elem_of_nil in H.
Qed.

(** X10. The stock is never replenished and never oversold: in the
    executions of the program every entry of the stock table is an entry of
    [INITIAL_STOCK], with a count between zero and the initial count. *)
Theorem stock_within_initial (hw : bool) (m : VendingMachine) :
  reachable hw m ->
  forall k n, stock m !! k = Some n ->
    exists n0, dict_get k INITIAL_STOCK = Some n0 /\ 0 <= n <= n0.
Proof.
  induction 1 as [m out H|m m' fuel e out Hr IH H|m m' out _ _ IH H];
    intros k n Hk.
  - rewrite setup_eq in H. injection H as <- _. simpl in Hk.
    exists n. split; [now apply initial_stock_lookup|].
    pose proof (initial_stock_nonneg k n Hk). lia.
  - destruct (stock_step hw fuel e m m' out Hr H)
      as [Hs|(pk & n1 & Hn1 & Hpos & Hs)].
    + rewrite Hs in Hk. exact (IH k n Hk).
    + rewrite Hs in Hk. destruct (decide (pk = k)) as [<-|Hne].
      * rewrite lookup_insert_eq in Hk. injection Hk as <-.
        destruct (IH pk n1 Hn1) as (n0 & Hn0 & Hb). exists n0. split; [exact Hn0|lia].
      * rewrite lookup_insert_ne in Hk by exact Hne. exact (IH k n Hk).
  - injection H as <- _. exact (IH k n Hk).
Qed.

Lemma stock_within_initial_witness :
  exists m out,
    main false 0 ["5"; "res_0"; "tick"; "5"; "res_1"] = Ok tt m out
    /\ stock m !! "res" = Some 3
    /\ exists n0, dict_get "res" INITIAL_STOCK = Some n0 /\ 0 <= 3 <= n0.
Proof.
  eexists. eexists. split; [vm_compute; reflexivity|].
  split; [vm_compute; reflexivity|].
  eapply (stock_within_initial false).
  - eapply (main_reachable false 0 ["5"; "res_0"; "tick"; "5"; "res_1"]).
    vm_compute. reflexivity.
  - vm_compute. reflexivity.
Defined.

(** ** Whole transactions *)















(** ** The change loop on any amount *)

Lemma Forall_repeat_in (c : Z) (n : nat) (l : list Z) :
  In c l -> Forall (fun x => In x l) (repeat c n).
Proof. intros H. induction n; simpl; constructor; assumption. Qed.

(** X13. On any change due that is not negative, with fuel for it, the
    change loop ends; it hands back only coins of the constructor's list,
    fewer than [change_due / 200 + 8] of them, and what it leaves is less
    than 5 cents: the coins and the remainder add up to the change due. *)
Theorem change_loop_conserves (fuel : nat) (cd : Z) :
  0 <= cd -> cd / 5 < Z.of_nat fuel ->
  exists r out,
    change_loop fuel (coin_values new_machine) cd = Some (r, out)
    /\ 0 <= r < 5
    /\ total (coins_emitted out) + r = cd
    /\ Forall (fun c => In c (coin_values new_machine)) (coins_emitted out)
    /\ Z.of_nat (length (coins_emitted out)) <= cd / 200 + 7.
Proof.
  intros Hcd Hf.
  destruct (change_loop_greedy fuel cd Hcd Hf) as (out & E & C).
  exists (cd mod 5), out. split; [exact E|].
  split; [apply Z.mod_pos_bound; lia|].
  split; [rewrite C, greedy_spec_total by exact Hcd; lia|].
  rewrite C. change (coin_values new_machine) with [200; 100; 25; 10; 5].
  unfold greedy_spec. cbv zeta. split.
  - repeat (apply Forall_app; split);
      apply Forall_repeat_in; simpl; tauto.
  - rewrite !length_app, !repeat_length.
    assert (H200 : 0 <= cd / 200) by (apply Z.div_pos; lia).
    assert (H100 : 0 <= (cd mod 200) / 100)
      by (apply Z.div_pos; [apply Z.mod_pos_bound|]; lia).
    assert (H25 : 0 <= (cd mod 200 mod 100) / 25)
      by (apply Z.div_pos; [apply Z.mod_pos_bound|]; lia).
    assert (H10 : 0 <= (cd mod 200 mod 100 mod 25) / 10)
      by (apply Z.div_pos; [apply Z.mod_pos_bound|]; lia).
    assert (H5 : 0 <= (cd mod 200 mod 100 mod 25 mod 10) / 5)
      by (apply Z.div_pos; [apply Z.mod_pos_bound|]; lia).
    rewrite !Nat2Z.inj_add, !Z2Nat.id by assumption.
    clear. Z.div_mod_to_equations. lia.
Qed.

Lemma change_loop_conserves_witness :
  exists r out,
    change_loop 40 (coin_values new_machine) 193 = Some (r, out)
    /\ 0 <= r < 5 /\ total (coins_emitted out) + r = 193.
Proof.
  destruct (change_loop_conserves 40 193) as (r & out & E & Hr & Ht & _);
    [ lia | vm_compute; reflexivity | ].
  exists r, out. split; [exact E|]. split; [exact Hr|exact Ht].
Defined.

(** ** The keys of the buttons *)

Lemma digits_no_underscore (d : Decimal.uint) :
  has_underscore (DecimalString.NilEmpty.string_of_uint d) = false.
Proof. induction d; simpl; try assumption; reflexivity. Qed.

Lemma index_text_no_underscore (i : nat) : has_underscore (index_text i) = false.
Proof. apply digits_no_underscore. Qed.

(** X14. The key of a product button decodes to its product.  For any
    product key, with or without separators in it, and any count, every key
    [f"{product_key}_{i}"] that the layout builds is taken by [add_coins] as
    a selection: it has a separator, [rsplit('_', 1)[0]] gives back the
    product key, and it is no coin key, not ['RETURN'] and not ['Exit']. *)
Theorem button_key_decodes (product_key key : string) (stock_count : Z) :
  In key (product_button_keys product_key stock_count) ->
  has_underscore key = true
  /\ rsplit_head key = product_key
  /\ dict_mem key COINS = false
  /\ String.eqb key "RETURN" = false
  /\ String.eqb key "Exit" = false.
Proof.
  unfold product_button_keys. intros H.
  apply in_map_iff in H as (i & <- & _).
  pose proof (has_underscore_button_key product_key (index_text i)) as Hu.
  split; [exact Hu|].
  split; [apply rsplit_head_button_key, index_text_no_underscore|].
  split; [exact (has_underscore_not_coin _ Hu)|].
  split; [exact (has_underscore_not_RETURN _ Hu)|].
  exact (has_underscore_not_Exit _ Hu).
Qed.

Lemma button_key_decodes_witness :
  In "my_part_11" (product_button_keys "my_part" 12)
  /\ rsplit_head "my_part_11" = "my_part".
Proof.
  assert (H : In "my_part_11" (product_button_keys "my_part" 12))
    by (vm_compute; tauto).
  split; [exact H|].
  exact (proj1 (proj2 (button_key_decodes "my_part" "my_part_11" 12 H))).
Defined.

Lemma button_key_parts (product_key key : string) (stock_count : Z) :
  In key (product_button_keys product_key stock_count) ->
  has_underscore key = true /\ rsplit_head key = product_key.
Proof.
  unfold product_button_keys. intros H.
  apply in_map_iff in H as (i & <- & _).
  split; [apply has_underscore_button_key|].
  apply rsplit_head_button_key, index_text_no_underscore.
Qed.

(** X15. Every button the window shows can be pressed safely: its key
    names a product of [PRODUCTS], and in the executions of the program the
    stock table has an entry for that product, so the lookup
    [machine.stock[product_key]] of [add_coins] finds it. *)
Theorem gui_buttons_name_products (hw : bool) (m : VendingMachine)
    (key : string) :
  reachable hw m -> In key gui_button_keys ->
  exists product_name price n,
    has_underscore key = true
    /\ dict_get (rsplit_head key) PRODUCTS = Some (product_name, price)
    /\ stock m !! rsplit_head key = Some n /\ 0 <= n.
Proof.
  intros Hr H. unfold gui_button_keys in H.
  apply in_flat_map in H as ([pk [nm price]] & Hin & Hkey). simpl in Hkey.
  destruct (button_key_parts pk key _ Hkey) as (Hu & Hd).
  destruct (reachable_Inv hw m Hr) as [_ _ _ _ Hprod Hst _ _].
  assert (Hp : dict_get pk PRODUCTS = Some (nm, price)).
  { unfold PRODUCTS in Hin |- *. simpl in Hin.
    destruct Hin as [[= <- <- <-]|[[= <- <- <-]|[[= <- <- <-]|[[= <- <- <-]|[]]]]];
      reflexivity. }
  rewrite Hd. destruct (Hprod _ _ Hp) as [n Hn].
  exists nm, price, n. split; [exact Hu|]. split; [exact Hp|].
  split; [exact Hn|exact (Hst _ _ Hn)].
Qed.

Lemma gui_buttons_name_products_witness :
  exists product_name price n,
    has_underscore "transistor_1" = true
    /\ dict_get (rsplit_head "transistor_1") PRODUCTS = Some (product_name, price)
    /\ stock cap_sold_machine !! rsplit_head "transistor_1" = Some n /\ 0 <= n.
Proof.
  apply (gui_buttons_name_products false cap_sold_machine "transistor_1").
  - eapply (main_reachable false 0 ["100"; "cap_2"]). vm_compute. reflexivity.
  - vm_compute. tauto.
Defined.

Lemma button_key_inj (product_key i j : string) :
  button_key product_key i = button_key product_key j -> i = j.
Proof.
  unfold button_key. induction product_key as [|c p IH]; simpl.
  - now intros [= ].
  - intros [= H]. exact (IH H).
Qed.

Lemma index_text_inj (i j : nat) : index_text i = index_text j -> i = j.
Proof.
  unfold index_text. intros H.
  apply (f_equal DecimalString.NilEmpty.uint_of_string) in H.
  rewrite !DecimalString.NilEmpty.usu in H. injection H as H.
  exact (DecimalNat.Unsigned.to_uint_inj _ _ H).
Qed.

(** X16. The buttons have keys of their own: the keys of one product are
    pairwise different, and a key built for one product is built for no
    other. *)
Theorem button_keys_distinct (product_key : string) (stock_count : Z) :
  List.NoDup (product_button_keys product_key stock_count)
  /\ forall other count key,
       In key (product_button_keys product_key stock_count) ->
       In key (product_button_keys other count) ->
       other = product_key.
Proof.
  split.
  - unfold product_button_keys. apply Stdlib.Lists.Finite.Injective_map_NoDup.
    + intros i j H. apply index_text_inj. exact (button_key_inj _ _ _ H).
    + apply List.seq_NoDup.
  - intros other count key H1 H2.
    destruct (button_key_parts _ _ _ H1) as [_ E1].
    destruct (button_key_parts _ _ _ H2) as [_ E2].
    congruence.
Qed.

(** ** The dispenser *)

(** X17. A sale pulses the dispenser once.  In the executions of the
    program, the pass that sells a product from [add_coins] returns, and
    what it sends to the pins is: with the hardware present, the dispense
    pin high and then low, once; without it, nothing. *)
Theorem sale_pulses_dispenser (hw : bool) (fuel : nat) (m : VendingMachine)
    (pk i nm : string) (price n : Z) :
  reachable hw m -> active m = Some AddCoinsState -> event m = "" ->
  has_underscore i = false ->
  dict_get pk PRODUCTS = Some (nm, price) ->
  stock m !! pk = Some n -> 0 < n -> price <= amount m ->
  exists m' out,
    main_loop_body hw fuel (Some (button_key pk i)) m = Ok Continue m' out
    /\ active m' = Some DeliverProductState
    /\ gpio_events out =
         (if hw then [(DISPENSE_PIN, true); (DISPENSE_PIN, false)] else []).
Proof.
  intros Hr Hact He Hi Hp Hn Hpos Hge.
  destruct (reachable_Inv hw m Hr) as [Hreg _ _ _ _ _ _ (s & Hs & _)].
  unfold active in Hact. rewrite Hs in Hact. injection Hact as Hcls.
  destruct (registered m DeliverProductState Hreg) as (d & Hld & Hcd);
    [discriminate|]. simpl in Hld.
  eexists. eexists. split.
  - exact (pass_select hw fuel pk i nm price n m s d
             Hs Hcls He Hi Hp Hn Hpos Hge Hld Hcd).
  - split; [unfold active; simpl; now rewrite Hcd|].
    destruct hw; reflexivity.
Qed.

Lemma sale_pulses_dispenser_witness :
  exists m' out,
    main_loop_body true 0 (Some (button_key "cap" "2")) funded_machine
      = Ok Continue m' out
    /\ gpio_events out = [(DISPENSE_PIN, true); (DISPENSE_PIN, false)].
Proof.
  destruct (sale_pulses_dispenser true 0 funded_machine "cap" "2"
              "0.1uF Capacitor" 50 4)
    as (m' & out & E & _ & G);
    [ eapply (main_reachable true 0 ["100"]); vm_compute; reflexivity
    | reflexivity | reflexivity | reflexivity | reflexivity
    | vm_compute; reflexivity | lia | vm_compute; discriminate | ].
  exists m', out. split; [exact E|exact G].
Defined.

(** ** The end of the loop *)

(** X18. ['Exit'] ends the loop: whatever the window delivers after it is
    not processed, and the run ends as the run up to it ends. *)
Theorem main_loop_stops_at_Exit (hw : bool) (fuel : nat)
    (events rest : list string) (m : VendingMachine) :
  main_loop hw fuel (events ++ "Exit" :: rest) m = main_loop hw fuel events m.
Proof.
  revert m; induction events as [|e events IH]; intros m.
  - simpl app. cbn [main_loop]. unfold bind at 1.
    rewrite main_loop_body_Exit. reflexivity.
  - rewrite <- app_comm_cons. cbn [main_loop]. unfold bind.
    destruct (main_loop_body hw fuel (Some e) m) as [[|] m1 o1| |];
      [|reflexivity..].
    rewrite IH. reflexivity.
Qed.

(** ** The button method *)

(** X19. [button_action] only stores the event: it leaves the state and
    the funds alone, and the refund happens at the update that follows.  In
    [add_coins], [button_action] and then [update] move the balance to the
    change due and the machine to [count_change]. *)
Theorem button_then_update_refunds (hw : bool) (fuel : nat)
    (m : VendingMachine) (s c : StateObj) :
  state m = Some s -> cls s = AddCoinsState ->
  states m !! "count_change" = Some c -> cls c = CountChangeState ->
  button_action m = Ok tt (set_event "RETURN" m) []
  /\ exists m' out,
       (button_action ;; update hw fuel) m = Ok tt m' out
       /\ state m' = Some c /\ amount m' = 0 /\ change_due m' = amount m
       /\ stock m' = stock m.
Proof.
  intros Hs Hc Hl Hcc. split; [reflexivity|].
  unfold bind, button_action, modify.
  rewrite (update_eq hw fuel (set_event "RETURN" m) s Hs), Hc.
  simpl State_update.
  rewrite (add_coins_update_return hw (set_event "RETURN" m) s c)
    by (first [assumption | reflexivity]).
  eexists. eexists. split; [reflexivity|]. simpl. auto.
Qed.

Lemma button_then_update_refunds_witness :
  button_action funded_machine = Ok tt (set_event "RETURN" funded_machine) []
  /\ exists m' out,
       (button_action ;; update false 0) funded_machine = Ok tt m' out
       /\ state m' = Some {| cls := CountChangeState; oid := 3 |}
       /\ amount m' = 0 /\ change_due m' = amount funded_machine
       /\ stock m' = stock funded_machine.
Proof.
  apply (button_then_update_refunds false 0 funded_machine
           {| cls := AddCoinsState; oid := 1 |}
           {| cls := CountChangeState; oid := 3 |});
    first [reflexivity | vm_compute; reflexivity].
Defined.
